(** * StorageURL: the table engine that exposes an HTTP(S) resource as a table

    A shallow embedding of [dbms/src/Storages/StorageURL.cpp].  The file
    orchestrates collaborators that live elsewhere (the host filter of the
    server context, the HTTP buffers, the format factory, the compression
    selector, Poco's URI class).  Every call that leaves the file is recorded
    in a log of [Call]s, so that the order in which the storage talks to its
    collaborators can be stated and proved. *)

From stdpp Require Import prelude strings gmap pretty.

Set Default Proof Using "Type".

(** ** Exceptions *)

(** [namespace ErrorCodes]: the two codes the file declares, the code the
    format factory raises for a name it does not know, and the codes of the
    other collaborators, which the storage only propagates. *)
Module ErrorCodes.
Inductive t :=
| NUMBER_OF_ARGUMENTS_DOESNT_MATCH
| UNACCEPTABLE_URL
| UNKNOWN_FORMAT
| BAD_GET
| BAD_CAST
| OTHER (code : Z).
End ErrorCodes.

Record Exception := mkException {
  message : string;
  code : ErrorCodes.t
}.

(** The outcome of a C++ call: a value, or an exception in flight. *)
Inductive Exc (A : Type) :=
| Ok (a : A)
| Throw (e : Exception).
Arguments Ok {A} a.
Arguments Throw {A} e.

Definition is_Ok {A} (r : Exc A) : bool :=
  match r with Ok _ => true | Throw _ => false end.

(** ** The monad of member functions

    A computation over a state [S] that may throw.  The state survives an
    exception, as the fields of a C++ object do. *)
Definition M (S A : Type) : Type := S → Exc A * S.

Global Instance M_ret {S} : MRet (M S) := λ A a s, (Ok a, s).
Global Instance M_bind {S} : MBind (M S) := λ A B f m s,
  match m s with
  | (Ok a, s') => f a s'
  | (Throw e, s') => (Throw e, s')
  end.

Definition throw {S A} (e : Exception) : M S A := λ s, (Throw e, s).

(** A pure call that may throw. *)
Definition lift_exc {S A} (r : Exc A) : M S A := λ s, (r, s).

Definition get {S} : M S S := λ s, (Ok s, s).
Definition modify {S} (f : S → S) : M S unit := λ s, (Ok tt, f s).

(** [try { m } catch (...) { }]: the caller of a query swallows the failure
    of that query and goes on. *)
Definition try_ {S A} (m : M S A) : M S unit := λ s, (Ok tt, (m s).2).

(** ** Poco::URI

    Poco is an external library.  The storage uses five of its operations:
    copy, [getHost], [getPath], [toString] and [addQueryParameter].  The
    query component is kept as the sequence of (name, value) pairs that
    [addQueryParameter] extends at its end; percent-encoding is left out. *)
Module URI.
Record t := mk {
  scheme : string;
  userInfo : string;
  host : string;
  port : N;
  path : string;
  query : list (string * string);
  fragment : string
}.

Definition getHost (u : t) : string := host u.
Definition getPath (u : t) : string := path u.

Definition addQueryParameter (u : t) (param val : string) : t :=
  mk (scheme u) (userInfo u) (host u) (port u) (path u)
     (query u ++ [(param, val)]) (fragment u).

Definition getAuthority (u : t) : string :=
  (if decide (userInfo u = "") then "" else userInfo u +:+ "@")
  +:+ host u
  +:+ (if decide (port u = 0%N) then "" else ":" +:+ pretty (port u)).

Fixpoint renderQuery (q : list (string * string)) : string :=
  match q with
  | [] => ""
  | [(k, v)] => k +:+ "=" +:+ v
  | (k, v) :: rest => k +:+ "=" +:+ v +:+ "&" +:+ renderQuery rest
  end.

Definition toString (u : t) : string :=
  scheme u +:+ "://" +:+ getAuthority u +:+ path u
  +:+ (match query u with [] => "" | _ => "?" +:+ renderQuery (query u) end)
  +:+ (if decide (fragment u = "") then "" else "#" +:+ fragment u).
End URI.

(** ** Values the storage passes around *)

(** [Field]: the value of a literal of the query language. *)
Inductive Field :=
| Field_Null
| Field_UInt64 (n : N)
| Field_Int64 (z : Z)
| Field_String (s : string).

(** The syntax trees of the engine arguments. *)
#[warnings="-register-all"]
Inductive AST :=
| ASTLiteral (value : Field)
| ASTIdentifier (name : string)
| ASTFunction (name : string) (arguments : list AST).

Definition ASTs := list AST.
Definition Names := list string.

(** [engine_args[i]->as<ASTLiteral &>().value.safeGet<String>()] *)
Definition safeGetString (a : AST) : Exc string :=
  match a with
  | ASTLiteral (Field_String s) => Ok s
  | ASTLiteral _ => Throw (mkException "Bad get: has another type, requested String" ErrorCodes.BAD_GET)
  | _ => Throw (mkException "Bad cast from type DB::IAST to DB::ASTLiteral" ErrorCodes.BAD_CAST)
  end.

(** Modelled from the spec: [RemoteHostFilter] is declared outside this
    file.  It is the security policy of section 4.1, an allowlist of the
    hosts the server may talk to, kept here as its membership test. *)
Record RemoteHostFilter := mkRemoteHostFilter {
  permits : string → bool
}.

Record Settings := mkSettings {
  max_http_get_redirects : N;
  http_connection_timeout : N;
  http_send_timeout : N;
  http_receive_timeout : N
}.

(** [Context]: the part of the server or query context the storage reads.
    [IStorageURLBase::context_global] is a C++ reference to the server's
    context; nothing in this file writes through it, so it is kept by value. *)
Record Context := mkContext {
  getSettingsRef : Settings;
  getRemoteHostFilter : RemoteHostFilter
}.

Record ConnectionTimeouts := mkConnectionTimeouts {
  connection_timeout : N;
  send_timeout : N;
  receive_timeout : N
}.

Inductive ColumnDefaultKind := Default | Materialized | Alias.

Record ColumnDefault := mkColumnDefault {
  kind : ColumnDefaultKind;
  expression : AST
}.

Record ColumnDescription := mkColumnDescription {
  name : string;
  type : string;
  default_desc : option ColumnDefault
}.

(** The declared schema, in declaration order. *)
Definition ColumnsDescription := list ColumnDescription.
Definition ConstraintsDescription := list AST.

(** Modelled from the spec: [ColumnsDescription::getDefaults] is declared
    outside this file.  Section 3: the mapping from column name to
    default-value expression derived from the declared schema; a column
    without a default expression has no entry.  [std::unordered_map::emplace]
    keeps the first entry of a name. *)
Definition getDefaults (columns : ColumnsDescription) : gmap string ColumnDefault :=
  foldl (λ ret column,
           match default_desc column with
           | Some d =>
               match ret !! name column with
               | Some _ => ret
               | None => <[name column := d]> ret
               end
           | None => ret
           end) ∅ columns.

Record ColumnWithTypeAndName := mkColumnWithTypeAndName {
  column : list Field;
  column_type : string;
  column_name : string
}.

Definition Block := list ColumnWithTypeAndName.

(** Modelled from the spec: [CompressionMethod] is declared outside this
    file.  Section 3 lists the choices a stream is opened with. *)
Module CompressionMethod.
Inductive t := None | Gzip | Zstd.
End CompressionMethod.

(** The body of a request, written by the callback into the output stream of
    the request; [nullptr] is [None]. *)
Definition PostDataCallback := option (string → string).

Module QueryProcessingStage.
Inductive Enum := FetchColumns | WithMergeableState | Complete.
End QueryProcessingStage.

(** What of [SelectQueryInfo] a pushdown could read: the query itself. *)
Record SelectQueryInfo := mkSelectQueryInfo {
  query : AST
}.

(** ** The collaborators' objects

    A buffer or a codec is known to this file by the arguments it was made
    from; the records keep exactly those. *)

(** [getReadBuffer<ReadWriteBufferFromHTTP>(compression_method, uri, method,
    callback, timeouts, max_redirects, credentials, buffer_size, headers,
    remote_host_filter)] *)
Record ReadWriteBufferFromHTTP := mkReadWriteBufferFromHTTP {
  rb_compression_method : CompressionMethod.t;
  rb_uri : URI.t;
  rb_method : string;
  rb_callback : PostDataCallback;
  rb_timeouts : ConnectionTimeouts;
  rb_max_redirects : N;
  rb_credentials : string * string;
  rb_buffer_size : N;
  rb_http_header_entries : list (string * string);
  rb_remote_host_filter : RemoteHostFilter
}.

(** [getWriteBuffer<WriteBufferFromHTTP>(compression_method, uri, method, timeouts)] *)
Record WriteBufferFromHTTP := mkWriteBufferFromHTTP {
  wb_compression_method : CompressionMethod.t;
  wb_uri : URI.t;
  wb_method : string;
  wb_timeouts : ConnectionTimeouts
}.

(** [FormatFactory::instance().getInput(format, buf, sample, context, max_block_size)] *)
Record InputFormat := mkInputFormat {
  in_format : string;
  in_buf : ReadWriteBufferFromHTTP;
  in_sample : Block;
  in_context : Context;
  in_max_block_size : N
}.

(** [FormatFactory::instance().getOutput(format, buf, sample, context)] *)
Record OutputFormat := mkOutputFormat {
  out_format : string;
  out_buf : WriteBufferFromHTTP;
  out_sample : Block;
  out_context : Context
}.

(** ** The log of calls that leave the file *)
Inductive Call :=
| CheckURL (filter : RemoteHostFilter) (uri : URI.t)
| HTTPOpenRead (buf : ReadWriteBufferFromHTTP)
| HTTPOpenWrite (buf : WriteBufferFromHTTP)
| FormatGetInput (reader : InputFormat)
| FormatGetOutput (writer : OutputFormat)
| WriterWritePrefix (writer : OutputFormat)
| WriterWrite (writer : OutputFormat) (block : Block)
| WriterWriteSuffix (writer : OutputFormat)
| WriterFlush (writer : OutputFormat)
| BufferFinalize (buf : WriteBufferFromHTTP).

Definition World := list Call.

(** A call that moves bytes over the network: opening either HTTP buffer,
    finalizing the upload, and the codec calls that push rows into the
    upload buffer. *)
Definition is_network_call (c : Call) : bool :=
  match c with
  | CheckURL _ _ => false
  | FormatGetInput _ | FormatGetOutput _ => false
  | HTTPOpenRead _ | HTTPOpenWrite _ | BufferFinalize _ => true
  | WriterWritePrefix _ | WriterWrite _ _ | WriterWriteSuffix _ | WriterFlush _ => true
  end.

(** A lookup in the format registry. *)
Definition is_format_lookup (c : Call) : bool :=
  match c with
  | FormatGetInput _ | FormatGetOutput _ => true
  | _ => false
  end.

Definition DBMS_DEFAULT_BUFFER_SIZE : N := 1048576.
Definition HTTP_GET : string := "GET".
Definition HTTP_POST : string := "POST".

(** ** Collaborators declared outside the file

    The functions of the repository and of Poco that the storage calls and
    whose bodies are not in this file.  Nothing is assumed about them: each
    may throw.  [outcome] says, for the calls made so far and the call being
    made, whether the collaborator throws. *)
Class Collaborators := {
  evaluateConstantExpressionOrIdentifierAsLiteral : AST → Context → Exc AST;
  parseURI : string → Exc URI.t;
  chooseCompressionMethod : string → string → Exc CompressionMethod.t;
  getHTTPTimeouts : Context → ConnectionTimeouts;
  setColumns : ColumnsDescription → Exc ColumnsDescription;
  getSampleBlock : ColumnsDescription → Block;
  getHeaderBlock : ColumnsDescription → Names → Exc Block;
  registered_formats : gset string;
  outcome : World → Call → option Exception
}.

Section Calls.
Context `{Collaborators}.

(** The call is logged, then the collaborator answers. *)
Definition call (c : Call) : M World unit := λ w,
  (match outcome w c with Some e => Throw e | None => Ok tt end, w ++ [c]).

(** Modelled from the spec: [RemoteHostFilter::checkURL] is declared
    outside this file.  Section 4.1: fails with [UnacceptableResource] if
    the host is not permitted, and has no effect beyond the check. *)
Definition checkURL (filter : RemoteHostFilter) (uri : URI.t) : M World unit := λ w,
  (if permits filter (URI.getHost uri) then Ok tt
   else Throw (mkException ("URL " +:+ URI.toString uri +:+ " is not allowed in config.xml")
                           ErrorCodes.UNACCEPTABLE_URL),
   w ++ [CheckURL filter uri]).

Definition getReadBuffer (buf : ReadWriteBufferFromHTTP) : M World ReadWriteBufferFromHTTP :=
  call (HTTPOpenRead buf);; mret buf.

Definition getWriteBuffer (buf : WriteBufferFromHTTP) : M World WriteBufferFromHTTP :=
  call (HTTPOpenWrite buf);; mret buf.

(** Modelled from the spec: [FormatFactory] is declared outside this file.
  By section 3 a format name is looked up in the registry when a stream
  opens, and a name that is not registered fails there. *)
Definition unknown_format (format : string) : Exception :=
  mkException ("Unknown format " +:+ format) ErrorCodes.UNKNOWN_FORMAT.

Definition getInput (reader : InputFormat) : M World InputFormat := λ w,
  if decide (in_format reader ∈ registered_formats)
  then (call (FormatGetInput reader);; mret reader) w
  else (Throw (unknown_format (in_format reader)), w ++ [FormatGetInput reader]).

Definition getOutput (writer : OutputFormat) : M World OutputFormat := λ w,
  if decide (out_format writer ∈ registered_formats)
  then (call (FormatGetOutput writer);; mret writer) w
  else (Throw (unknown_format (out_format writer)), w ++ [FormatGetOutput writer]).
End Calls.

(** A member function of an object of type [X] runs over the object and the
    world; a collaborator call touches the world only. *)
Definition liftW {X A} (m : M World A) : M (X * World) A := λ s,
  let '(r, w) := m s.2 in (r, (s.1, w)).

Definition this_ {X} : M (X * World) X := λ s, (Ok s.1, s).
Definition assign {X} (f : X → X) : M (X * World) unit := modify (prod_map f id).

(** ** class StorageURLBlockInputStream *)
Module StorageURLBlockInputStream.
Record t := mk {
  name : string;
  read_buf : ReadWriteBufferFromHTTP;
  reader : InputFormat
}.

Section Methods.
Context `{Collaborators}.

Definition ctor (uri : URI.t) (method : string) (callback : PostDataCallback)
    (format name_ : string) (sample_block : Block) (context : Context)
    (max_block_size : N) (timeouts : ConnectionTimeouts)
    (compression_method : CompressionMethod.t) : M World t :=
  read_buf ← getReadBuffer
    (mkReadWriteBufferFromHTTP compression_method uri method callback timeouts
       (max_http_get_redirects (getSettingsRef context)) ("", "")
       DBMS_DEFAULT_BUFFER_SIZE [] (getRemoteHostFilter context));
  reader ← getInput (mkInputFormat format read_buf sample_block context max_block_size);
  mret (mk name_ read_buf reader).

Definition getName (s : t) : string := name s.
End Methods.
End StorageURLBlockInputStream.

(** ** class StorageURLBlockOutputStream *)
Module StorageURLBlockOutputStream.
Record t := mk {
  sample_block : Block;
  write_buf : WriteBufferFromHTTP;
  writer : OutputFormat
}.

Section Methods.
Context `{Collaborators}.

Definition ctor (uri : URI.t) (format : string) (sample_block_ : Block)
    (context : Context) (timeouts : ConnectionTimeouts)
    (compression_method : CompressionMethod.t) : M World t :=
  write_buf ← getWriteBuffer (mkWriteBufferFromHTTP compression_method uri HTTP_POST timeouts);
  writer ← getOutput (mkOutputFormat format write_buf sample_block_ context);
  mret (mk sample_block_ write_buf writer).

Definition getHeader (s : t) : Block := sample_block s.

Definition write (s : t) (block : Block) : M World unit :=
  call (WriterWrite (writer s) block).

Definition writePrefix (s : t) : M World unit :=
  call (WriterWritePrefix (writer s)).

Definition writeSuffix (s : t) : M World unit :=
  call (WriterWriteSuffix (writer s));;
  call (WriterFlush (writer s));;
  call (BufferFinalize (write_buf s)).
End Methods.
End StorageURLBlockOutputStream.

(** The input streams [read] can return: the stream of this file, bare or
    under the stage that fills in column defaults. *)
Inductive BlockInputStream :=
| FromURL (stream : StorageURLBlockInputStream.t)
| AddingDefaultsBlockInputStream (input : BlockInputStream)
    (column_defaults : gmap string ColumnDefault) (context : Context).

Definition BlockInputStreams := list BlockInputStream.

(** The holder of the structure lock that [rename] receives and does not use. *)
Inductive TableStructureWriteLockHolder : Set := mkTableStructureWriteLockHolder.

(** ** class IStorageURLBase *)
Module IStorageURLBase.
Record t := mk {
  uri : URI.t;
  context_global : Context;
  compression_method : string;
  format_name : string;
  table_name : string;
  database_name : string;
  (* the state of the base class IStorage *)
  columns : ColumnsDescription;
  constraints : ConstraintsDescription
}.

Definition set_table_name (v : string) (s : t) : t :=
  mk (uri s) (context_global s) (compression_method s) (format_name s)
     v (database_name s) (columns s) (constraints s).
Definition set_database_name (v : string) (s : t) : t :=
  mk (uri s) (context_global s) (compression_method s) (format_name s)
     (table_name s) v (columns s) (constraints s).
Definition set_columns (v : ColumnsDescription) (s : t) : t :=
  mk (uri s) (context_global s) (compression_method s) (format_name s)
     (table_name s) (database_name s) v (constraints s).
Definition set_constraints (v : ConstraintsDescription) (s : t) : t :=
  mk (uri s) (context_global s) (compression_method s) (format_name s)
     (table_name s) (database_name s) (columns s) v.

Definition getColumns (s : t) : ColumnsDescription := columns s.

(** The virtual member functions a derived storage may override. *)
Class Virtuals := {
  getName : t → string;
  getReadMethod : t → string;
  getReadURIParams : t → Names → SelectQueryInfo → Context →
    QueryProcessingStage.Enum → N → list (string * string);
  getReadPOSTDataCallback : t → Names → SelectQueryInfo → Context →
    QueryProcessingStage.Enum → N → PostDataCallback
}.

(** The bodies this file gives them. *)
Definition base_getReadMethod (s : t) : string := HTTP_GET.

Definition base_getReadURIParams (s : t) (column_names : Names)
    (query_info : SelectQueryInfo) (context : Context)
    (processed_stage : QueryProcessingStage.Enum) (max_block_size : N)
    : list (string * string) := [].

Definition base_getReadPOSTDataCallback (s : t) (column_names : Names)
    (query_info : SelectQueryInfo) (context : Context)
    (processed_stage : QueryProcessingStage.Enum) (max_block_size : N)
    : PostDataCallback := None.

Section Methods.
Context `{Collaborators}.

(** The constructor: the member initializers, then the body. *)
Definition ctor (uri_ : URI.t) (context_ : Context)
    (database_name_ table_name_ format_name_ : string)
    (columns_ : ColumnsDescription) (constraints_ : ConstraintsDescription)
    (compression_method_ : string) : M World t :=
  let this := mk uri_ context_ compression_method_ format_name_
                 table_name_ database_name_ [] [] in
  checkURL (getRemoteHostFilter (context_global this)) (uri this);;
  stored ← lift_exc (setColumns columns_);
  let this := set_columns stored this in
  let this := set_constraints constraints_ this in
  mret this.

Context `{Virtuals}.

(** [read].  The arguments of the stream's constructor are evaluated
    left to right (C++ leaves their order open; each is pure). *)
Definition read (column_names : Names) (query_info : SelectQueryInfo)
    (context : Context) (processed_stage : QueryProcessingStage.Enum)
    (max_block_size : N) (num_streams : N) : M (t * World) BlockInputStreams :=
  this ← this_;
  let request_uri := uri this in
  let params := getReadURIParams this column_names query_info context
                  processed_stage max_block_size in
  let request_uri :=
    foldl (λ u '(param, value), URI.addQueryParameter u param value)
          request_uri params in
  header ← lift_exc (getHeaderBlock (getColumns this) column_names);
  compression ← lift_exc
    (chooseCompressionMethod (URI.getPath request_uri) (compression_method this));
  block_input ← liftW (StorageURLBlockInputStream.ctor request_uri
    (getReadMethod this)
    (getReadPOSTDataCallback this column_names query_info context
       processed_stage max_block_size)
    (format_name this)
    (getName this)
    header
    context
    max_block_size
    (getHTTPTimeouts context)
    compression);
  let column_defaults := getDefaults (getColumns this) in
  if decide (column_defaults = ∅)
  then mret [FromURL block_input]
  else mret [AddingDefaultsBlockInputStream (FromURL block_input) column_defaults context].

Definition rename (new_path_to_db new_database_name new_table_name : string)
    (lock : TableStructureWriteLockHolder) : M (t * World) unit :=
  assign (set_table_name new_table_name);;
  assign (set_database_name new_database_name).

Definition write (query : AST) (context : Context)
    : M (t * World) StorageURLBlockOutputStream.t :=
  this ← this_;
  compression ← lift_exc
    (chooseCompressionMethod (URI.toString (uri this)) (compression_method this));
  liftW (StorageURLBlockOutputStream.ctor
    (uri this) (format_name this) (getSampleBlock (getColumns this))
    (context_global this)
    (getHTTPTimeouts (context_global this))
    compression).
End Methods.
End IStorageURLBase.

(** ** class StorageURL: the storage registered under the name URL.  It
    overrides nothing but [getName]. *)
Module StorageURL.
Global Instance virtuals : IStorageURLBase.Virtuals := {|
  IStorageURLBase.getName := λ _, "URL";
  IStorageURLBase.getReadMethod := IStorageURLBase.base_getReadMethod;
  IStorageURLBase.getReadURIParams := IStorageURLBase.base_getReadURIParams;
  IStorageURLBase.getReadPOSTDataCallback := IStorageURLBase.base_getReadPOSTDataCallback
|}.

(** [StorageURL::create]: the constructor of the derived class passes its
    arguments on to the base, the context moved to second place. *)
Definition create `{Collaborators} (uri_ : URI.t)
    (database_name_ table_name_ format_name_ : string)
    (columns_ : ColumnsDescription) (constraints_ : ConstraintsDescription)
    (context_ : Context) (compression_method_ : string) : M World IStorageURLBase.t :=
  IStorageURLBase.ctor uri_ context_ database_name_ table_name_ format_name_
    columns_ constraints_ compression_method_.
End StorageURL.

(** ** The registration of the engine *)
Module StorageFactory.
(** [StorageFactory::Arguments].  Its member [engine_args] is a reference to
    the argument list of the CREATE query, which the creator overwrites in
    place: that list is the state the creator runs over. *)
Record Arguments := mkArguments {
  local_context : Context;
  context : Context;
  database_name : string;
  table_name : string;
  columns : ColumnsDescription;
  constraints : ConstraintsDescription
}.

Definition Creator := Arguments → M (ASTs * World) IStorageURLBase.t.

(** The registry, as the map from engine name to creator. *)
Definition t := gmap string Creator.

Definition registerStorage (name : string) (creator : Creator) (factory : t) : t :=
  <[name := creator]> factory.
End StorageFactory.

Global Instance AST_inhabited : Inhabited AST := populate (ASTLiteral Field_Null).

Section Registration.
Context `{Collaborators}.

Definition engine_args_ : M (ASTs * World) ASTs := this_.

(** [engine_args[i] = evaluateConstantExpressionOrIdentifierAsLiteral(engine_args[i], local_context)] *)
Definition evaluate_in_place (i : nat) (local_context : Context) : M (ASTs * World) unit :=
  engine_args ← engine_args_;
  literal ← lift_exc
    (evaluateConstantExpressionOrIdentifierAsLiteral (engine_args !!! i) local_context);
  assign (<[i := literal]>).

(** [engine_args[i]->as<ASTLiteral &>().value.safeGet<String>()] *)
Definition string_argument (i : nat) : M (ASTs * World) string :=
  engine_args ← engine_args_;
  lift_exc (safeGetString (engine_args !!! i)).

(** The creator that [registerStorageURL] registers. *)
Definition URL_creator : StorageFactory.Creator := λ args,
  engine_args ← engine_args_;
  if bool_decide (length engine_args ≠ 2 ∧ length engine_args ≠ 3) then
    throw (mkException
      "Storage URL requires 2 or 3 arguments: url, name of used format and optional compression method."
      ErrorCodes.NUMBER_OF_ARGUMENTS_DOESNT_MATCH)
  else
    evaluate_in_place 0 (StorageFactory.local_context args);;
    url ← string_argument 0;
    uri ← lift_exc (parseURI url);
    evaluate_in_place 1 (StorageFactory.local_context args);;
    format_name ← string_argument 1;
    compression_method ←
      (if bool_decide (length engine_args = 3) then
         evaluate_in_place 2 (StorageFactory.local_context args);;
         string_argument 2
       else mret "auto");
    liftW (StorageURL.create
      uri
      (StorageFactory.database_name args) (StorageFactory.table_name args)
      format_name
      (StorageFactory.columns args) (StorageFactory.constraints args)
      (StorageFactory.context args)
      compression_method).

Definition registerStorageURL (factory : StorageFactory.t) : StorageFactory.t :=
  StorageFactory.registerStorage "URL" URL_creator factory.
End Registration.

(** ** The query engine as a client

    What the server does with a table over its lifetime: it constructs it,
    then serves queries.  A SELECT calls [read]; an INSERT calls [write] and
    drives the sink (prefix, the blocks, suffix); a RENAME calls [rename].
    A query that throws fails alone; the table stays. *)
Inductive Request :=
| Select (column_names : Names) (query_info : SelectQueryInfo) (context : Context)
    (processed_stage : QueryProcessingStage.Enum) (max_block_size num_streams : N)
| Insert (query : AST) (context : Context) (blocks : list Block)
| Rename (new_path_to_db new_database_name new_table_name : string).

Section Client.
Context `{Collaborators} `{IStorageURLBase.Virtuals}.

Fixpoint write_blocks (out : StorageURLBlockOutputStream.t) (blocks : list Block)
    : M World unit :=
  match blocks with
  | [] => mret tt
  | block :: rest => StorageURLBlockOutputStream.write out block;; write_blocks out rest
  end.

Definition serve (r : Request) : M (IStorageURLBase.t * World) unit :=
  match r with
  | Select column_names query_info context processed_stage max_block_size num_streams =>
      IStorageURLBase.read column_names query_info context processed_stage
        max_block_size num_streams;;
      mret tt
  | Insert query context blocks =>
      out ← IStorageURLBase.write query context;
      liftW (StorageURLBlockOutputStream.writePrefix out;;
             write_blocks out blocks;;
             StorageURLBlockOutputStream.writeSuffix out)
  | Rename new_path_to_db new_database_name new_table_name =>
      IStorageURLBase.rename new_path_to_db new_database_name new_table_name
        mkTableStructureWriteLockHolder
  end.

Fixpoint serve_all (rs : list Request) : M (IStorageURLBase.t * World) unit :=
  match rs with
  | [] => mret tt
  | r :: rest => try_ (serve r);; serve_all rest
  end.

(** The log of a table's whole life, from an empty log: construction with
    the given arguments, then the requests in order. *)
Definition lifetime (uri_ : URI.t) (context_ : Context)
    (database_name_ table_name_ format_name_ : string)
    (columns_ : ColumnsDescription) (constraints_ : ConstraintsDescription)
    (compression_method_ : string) (rs : list Request) : Exc unit * World :=
  match IStorageURLBase.ctor uri_ context_ database_name_ table_name_ format_name_
          columns_ constraints_ compression_method_ [] with
  | (Ok table, w) => let '(r, s) := serve_all rs (table, w) in (r, s.2)
  | (Throw e, w) => (Throw e, w)
  end.
End Client.

(** The address [read] requests: the stored one with the parameters the
    storage asks for added at the end of its query. *)
Definition request_uri_of (table : IStorageURLBase.t) (params : list (string * string)) : URI.t :=
  foldl (λ u '(param, value), URI.addQueryParameter u param value)
        (IStorageURLBase.uri table) params.


(** A computation only adds calls at the end of the log, which it finds in
    its state by [log]. *)
Definition extends {S A} (log : S → World) (m : M S A) : Prop :=
  ∀ s, ∃ calls, log (m s).2 = log s ++ calls.

(** The compression each HTTP buffer of a log was opened with. *)
Definition opened_compressions (w : World) : list CompressionMethod.t :=
  omap (λ c, match c with
             | HTTPOpenRead buf => Some (rb_compression_method buf)
             | HTTPOpenWrite buf => Some (wb_compression_method buf)
             | _ => None
             end) w.

(** The address each read request of a log went to. *)
Definition requested_addresses (w : World) : list URI.t :=
  omap (λ c, match c with HTTPOpenRead buf => Some (rb_uri buf) | _ => None end) w.

(** The collaborator function behind a call. *)
Definition call_name (c : Call) : string :=
  match c with
  | CheckURL _ _ => "checkURL"
  | HTTPOpenRead _ => "ReadWriteBufferFromHTTP"
  | HTTPOpenWrite _ => "WriteBufferFromHTTP"
  | FormatGetInput _ => "getInput"
  | FormatGetOutput _ => "getOutput"
  | WriterWritePrefix _ => "writePrefix"
  | WriterWrite _ _ => "write"
  | WriterWriteSuffix _ => "writeSuffix"
  | WriterFlush _ => "flush"
  | BufferFinalize _ => "finalize"
  end.

(** ** A concrete server to run the storage on *)

Definition endsWith (s suffix : string) : bool :=
  bool_decide (String.list_ascii_of_string suffix `suffix_of` String.list_ascii_of_string s).

(** Modelled from the spec: [IStorage::chooseCompressionMethod] is declared
    outside this file.  Section 4.2: with the override "auto" the suffix of
    the given string picks a known algorithm and an unrecognized suffix gives
    none; an override that names an algorithm is used as it is, and the
    string is not looked at. *)
Definition chooseCompressionMethod_spec (path_or_uri override : string)
    : Exc CompressionMethod.t :=
  if decide (override = "auto") then
    if endsWith path_or_uri ".gz" then Ok CompressionMethod.Gzip
    else if endsWith path_or_uri ".zst" then Ok CompressionMethod.Zstd
    else Ok CompressionMethod.None
  else if decide (override = "gzip") then Ok CompressionMethod.Gzip
  else if decide (override = "zstd") then Ok CompressionMethod.Zstd
  else if decide (override = "none") then Ok CompressionMethod.None
  else Throw (mkException "Unknown compression method" (ErrorCodes.OTHER 48)).

Module Demo.
Definition example_uri : URI.t :=
  URI.mk "http" "" "example.com" 0 "/data.csv.gz" [] "".

Definition versioned_uri : URI.t :=
  URI.mk "http" "" "example.com" 0 "/data.csv.gz" [("v", "1")] "".

Definition evaluate (a : AST) (c : Context) : Exc AST :=
  match a with
  | ASTLiteral v => Ok (ASTLiteral v)
  | ASTIdentifier n => Ok (ASTLiteral (Field_String n))
  | ASTFunction _ _ => Throw (mkException "not a constant expression" (ErrorCodes.OTHER 36))
  end.

(** The addresses this server knows how to parse. *)
Definition parse (url : string) : Exc URI.t :=
  if decide (url = "http://example.com/data.csv.gz") then Ok example_uri
  else if decide (url = "http://example.com/data.csv.gz?v=1") then Ok versioned_uri
  else Throw (mkException "URI syntax" (ErrorCodes.OTHER 1000)).

Definition timeouts (c : Context) : ConnectionTimeouts :=
  mkConnectionTimeouts (http_connection_timeout (getSettingsRef c))
    (http_send_timeout (getSettingsRef c)) (http_receive_timeout (getSettingsRef c)).

Definition sample (columns : ColumnsDescription) : Block :=
  (λ c, mkColumnWithTypeAndName [] (type c) (name c)) <$> columns.

Definition header (columns : ColumnsDescription) (names : Names) : Exc Block :=
  foldr (λ n acc,
           match acc, list_find (λ c, name c = n) columns with
           | Ok b, Some (_, c) => Ok (mkColumnWithTypeAndName [] (type c) (name c) :: b)
           | Ok _, None => Throw (mkException ("There is no column " +:+ n) (ErrorCodes.OTHER 16))
           | Throw e, _ => Throw e
           end) (Ok []) names.

(** A server whose network and codecs never fail. *)
Definition server : Collaborators := {|
  evaluateConstantExpressionOrIdentifierAsLiteral := evaluate;
  parseURI := parse;
  chooseCompressionMethod := chooseCompressionMethod_spec;
  getHTTPTimeouts := timeouts;
  setColumns := Ok;
  getSampleBlock := sample;
  getHeaderBlock := header;
  registered_formats := {[ "CSV"; "TSV" ]};
  outcome := λ _ _, None
|}.

Definition settings : Settings := mkSettings 0 1 30 30.

Definition open_context : Context :=
  mkContext settings (mkRemoteHostFilter (λ _, true)).

(** Only example.com is on the allowlist. *)
Definition strict_context : Context :=
  mkContext settings (mkRemoteHostFilter (λ h, bool_decide (h = "example.com"))).

Definition evil_uri : URI.t :=
  URI.mk "http" "" "evil.test" 0 "/data.csv" [] "".

Definition plain_columns : ColumnsDescription :=
  [mkColumnDescription "id" "UInt64" None; mkColumnDescription "s" "String" None].


Definition table : IStorageURLBase.t :=
  IStorageURLBase.mk example_uri open_context "auto" "CSV" "t" "db" plain_columns [].

Definition versioned_table : IStorageURLBase.t :=
  IStorageURLBase.mk versioned_uri open_context "auto" "CSV" "t" "db" plain_columns [].

Definition info : SelectQueryInfo := mkSelectQueryInfo (ASTIdentifier "select").

Definition factory_arguments : StorageFactory.Arguments :=
  StorageFactory.mkArguments open_context open_context "db" "t" plain_columns [].


Definition one_block : Block :=
  [mkColumnWithTypeAndName [Field_UInt64 1] "UInt64" "id";
   mkColumnWithTypeAndName [Field_String "a"] "String" "s"].

(** A SELECT, an INSERT of one block and a RENAME. *)
Definition requests : list Request :=
  [Select ["id"] info open_context QueryProcessingStage.Complete 65536 1;
   Insert (ASTIdentifier "insert") open_context [one_block];
   Rename "/var/lib/db2/" "db2" "t2"].

(** A derived storage that pushes the wanted columns and the block size
    into the query of the request, as a bridge to another database does. *)
Definition pushdown : IStorageURLBase.Virtuals := {|
  IStorageURLBase.getName := λ _, "Bridge";
  IStorageURLBase.getReadMethod := λ _, HTTP_POST;
  IStorageURLBase.getReadURIParams := λ _ column_names _ _ _ max_block_size,
    [("columns", String.concat "," column_names);
     ("max_block_size", pretty max_block_size)];
  IStorageURLBase.getReadPOSTDataCallback := λ _ _ query_info _ _ _,
    Some (λ body, body +:+ "query=select")
|}.
End Demo.

(** ** The rest of the client's view of a table *)

(** A request that is a RENAME. *)
Definition is_rename (r : Request) : bool :=
  match r with
  | Rename _ _ _ => true
  | _ => false
  end.

(** The table with another context stored in it. *)
Definition with_context_global (c : Context) (s : IStorageURLBase.t) : IStorageURLBase.t :=
  IStorageURLBase.mk (IStorageURLBase.uri s) c (IStorageURLBase.compression_method s)
    (IStorageURLBase.format_name s) (IStorageURLBase.table_name s)
    (IStorageURLBase.database_name s) (IStorageURLBase.columns s)
    (IStorageURLBase.constraints s).

(** Two tables with the same address, compression override, format name and
    schema. *)
Definition reads_alike (a b : IStorageURLBase.t) : Prop :=
  IStorageURLBase.uri a = IStorageURLBase.uri b ∧
  IStorageURLBase.compression_method a = IStorageURLBase.compression_method b ∧
  IStorageURLBase.format_name a = IStorageURLBase.format_name b ∧
  IStorageURLBase.columns a = IStorageURLBase.columns b.

(** The calls an INSERT of [blocks] through a sink makes when none throws:
    [writePrefix], one [write] per block, then the three of [writeSuffix]. *)
Definition upload_script (out : StorageURLBlockOutputStream.t) (blocks : list Block)
    : list Call :=
  WriterWritePrefix (StorageURLBlockOutputStream.writer out)
  :: (WriterWrite (StorageURLBlockOutputStream.writer out) <$> blocks)
  ++ [WriterWriteSuffix (StorageURLBlockOutputStream.writer out);
      WriterFlush (StorageURLBlockOutputStream.writer out);
      BufferFinalize (StorageURLBlockOutputStream.write_buf out)].

Section Upload.
Context `{Collaborators}.

(** The calls in order, stopping at the first that throws. *)
Fixpoint run_calls (cs : list Call) : M World unit :=
  match cs with
  | [] => mret tt
  | c :: rest => call c;; run_calls rest
  end.

(** What the caller of [write] does with the sink. *)
Definition upload (out : StorageURLBlockOutputStream.t) (blocks : list Block)
    : M World unit :=
  StorageURLBlockOutputStream.writePrefix out;;
  write_blocks out blocks;;
  StorageURLBlockOutputStream.writeSuffix out.
End Upload.

(** * Properties *)

(** Unfolding of the monad and of the collaborator calls. *)
Ltac unfold_calls :=
  unfold StorageURLBlockInputStream.ctor, StorageURLBlockOutputStream.ctor,
    StorageURLBlockOutputStream.writeSuffix, StorageURLBlockOutputStream.writePrefix,
    StorageURLBlockOutputStream.write,
    getReadBuffer, getWriteBuffer, getInput, getOutput, checkURL, call,
    liftW, this_, assign, modify, lift_exc, throw, try_,
    mbind, M_bind, mret, M_ret in *; simpl in *.

Section Proofs.
Context `{Collaborators} `{IStorageURLBase.Virtuals}.

Lemma addQueryParameters_query (params : list (string * string)) (u : URI.t) :
  foldl (λ u '(param, value), URI.addQueryParameter u param value) u params
  = URI.mk (URI.scheme u) (URI.userInfo u) (URI.host u) (URI.port u) (URI.path u)
           (URI.query u ++ params) (URI.fragment u).
Proof.
  revert u. induction params as [|[param value] params IH]; intros u; simpl.
  - rewrite app_nil_r. by destruct u.
  - rewrite IH. simpl. by rewrite <- app_assoc.
Qed.

Lemma request_uri_path table params :
  URI.getPath (request_uri_of table params) = URI.getPath (IStorageURLBase.uri table).
Proof. unfold request_uri_of. by rewrite addQueryParameters_query. Qed.

(** What [read] does, call by call. *)
Lemma read_unfold table w column_names query_info context processed_stage
    max_block_size num_streams :
  let params := IStorageURLBase.getReadURIParams table column_names query_info
                  context processed_stage max_block_size in
  let request_uri := request_uri_of table params in
  IStorageURLBase.read column_names query_info context processed_stage
    max_block_size num_streams (table, w)
  = match getHeaderBlock (IStorageURLBase.getColumns table) column_names with
    | Throw e => (Throw e, (table, w))
    | Ok header =>
      match chooseCompressionMethod (URI.getPath request_uri)
              (IStorageURLBase.compression_method table) with
      | Throw e => (Throw e, (table, w))
      | Ok compression =>
        let buf := mkReadWriteBufferFromHTTP compression request_uri
          (IStorageURLBase.getReadMethod table)
          (IStorageURLBase.getReadPOSTDataCallback table column_names query_info
             context processed_stage max_block_size)
          (getHTTPTimeouts context)
          (max_http_get_redirects (getSettingsRef context)) ("", "")
          DBMS_DEFAULT_BUFFER_SIZE [] (getRemoteHostFilter context) in
        let reader := mkInputFormat (IStorageURLBase.format_name table) buf header
          context max_block_size in
        let block_input := StorageURLBlockInputStream.mk
          (IStorageURLBase.getName table) buf reader in
        match outcome w (HTTPOpenRead buf) with
        | Some e => (Throw e, (table, w ++ [HTTPOpenRead buf]))
        | None =>
          if decide (IStorageURLBase.format_name table ∈ registered_formats) then
            match outcome (w ++ [HTTPOpenRead buf]) (FormatGetInput reader) with
            | Some e => (Throw e, (table, w ++ [HTTPOpenRead buf; FormatGetInput reader]))
            | None =>
              (Ok (if decide (getDefaults (IStorageURLBase.getColumns table) = ∅)
                   then [FromURL block_input]
                   else [AddingDefaultsBlockInputStream (FromURL block_input)
                           (getDefaults (IStorageURLBase.getColumns table)) context]),
               (table, w ++ [HTTPOpenRead buf; FormatGetInput reader]))
            end
          else (Throw (unknown_format (IStorageURLBase.format_name table)),
                (table, w ++ [HTTPOpenRead buf; FormatGetInput reader]))
        end
      end
    end.
Proof.
  intros params request_uri.
  unfold IStorageURLBase.read. fold params. fold (request_uri_of table params).
  fold request_uri. unfold_calls.
  destruct (getHeaderBlock _ _) as [header|e]; [|done].
  destruct (chooseCompressionMethod _ _) as [compression|e]; [|done].
  destruct (outcome w _) as [e'|]; [done|].
  destruct (decide (_ ∈ registered_formats)); simpl; [|by rewrite <- app_assoc].
  destruct (outcome _ _) as [e'|]; rewrite <- app_assoc; simpl; [done|].
  by destruct (decide (getDefaults _ = ∅)).
Qed.

(** What [write] does, call by call. *)
Lemma write_unfold table w query context :
  IStorageURLBase.write query context (table, w)
  = match chooseCompressionMethod (URI.toString (IStorageURLBase.uri table))
            (IStorageURLBase.compression_method table) with
    | Throw e => (Throw e, (table, w))
    | Ok compression =>
      let buf := mkWriteBufferFromHTTP compression (IStorageURLBase.uri table) HTTP_POST
        (getHTTPTimeouts (IStorageURLBase.context_global table)) in
      let writer := mkOutputFormat (IStorageURLBase.format_name table) buf
        (getSampleBlock (IStorageURLBase.getColumns table))
        (IStorageURLBase.context_global table) in
      match outcome w (HTTPOpenWrite buf) with
      | Some e => (Throw e, (table, w ++ [HTTPOpenWrite buf]))
      | None =>
        if decide (IStorageURLBase.format_name table ∈ registered_formats) then
          match outcome (w ++ [HTTPOpenWrite buf]) (FormatGetOutput writer) with
          | Some e => (Throw e, (table, w ++ [HTTPOpenWrite buf; FormatGetOutput writer]))
          | None =>
            (Ok (StorageURLBlockOutputStream.mk
                   (getSampleBlock (IStorageURLBase.getColumns table)) buf writer),
             (table, w ++ [HTTPOpenWrite buf; FormatGetOutput writer]))
          end
        else (Throw (unknown_format (IStorageURLBase.format_name table)),
              (table, w ++ [HTTPOpenWrite buf; FormatGetOutput writer]))
      end
    end.
Proof.
  unfold IStorageURLBase.write. unfold_calls.
  destruct (chooseCompressionMethod _ _) as [compression|e]; [|done].
  destruct (outcome w _) as [e'|]; [done|].
  destruct (decide (_ ∈ registered_formats)); simpl; [|by rewrite <- app_assoc].
  by destruct (outcome _ _) as [e'|]; rewrite <- app_assoc.
Qed.

(** What the constructor does. *)
Lemma ctor_unfold uri_ context_ database_name_ table_name_ format_name_
    columns_ constraints_ compression_method_ w :
  IStorageURLBase.ctor uri_ context_ database_name_ table_name_ format_name_
    columns_ constraints_ compression_method_ w
  = (if permits (getRemoteHostFilter context_) (URI.getHost uri_) then
       match setColumns columns_ with
       | Ok stored =>
           Ok (IStorageURLBase.mk uri_ context_ compression_method_ format_name_
                 table_name_ database_name_ stored constraints_)
       | Throw e => Throw e
       end
     else Throw (mkException
                   ("URL " +:+ URI.toString uri_ +:+ " is not allowed in config.xml")
                   ErrorCodes.UNACCEPTABLE_URL),
     w ++ [CheckURL (getRemoteHostFilter context_) uri_]).
Proof.
  unfold IStorageURLBase.ctor. unfold_calls.
  destruct (permits _ _); [|done].
  by destruct (setColumns columns_).
Qed.

(** ** The write sink *)

(** C4.  [writeSuffix] of the write sink makes exactly three calls, in this
    order: the codec's [writeSuffix], the codec's [flush], the buffer's
    [finalize].  It returns normally exactly when the log has grown by these
    three calls and none of them threw; when it throws, the exception is the
    one of the first call that threw, the calls before it were made in
    order, and nothing was called after it. *)
Theorem writeSuffix_three_steps_in_order (s : StorageURLBlockOutputStream.t) (w : World) :
  let steps := [WriterWriteSuffix (StorageURLBlockOutputStream.writer s);
                WriterFlush (StorageURLBlockOutputStream.writer s);
                BufferFinalize (StorageURLBlockOutputStream.write_buf s)] in
  match StorageURLBlockOutputStream.writeSuffix s w with
  | (Ok _, w') =>
      w' = w ++ steps ∧
      ∀ i c, steps !! i = Some c → outcome (w ++ take i steps) c = None
  | (Throw e, w') =>
      ∃ i c, steps !! i = Some c ∧
        outcome (w ++ take i steps) c = Some e ∧
        w' = w ++ take (S i) steps ∧
        ∀ j c', j < i → steps !! j = Some c' → outcome (w ++ take j steps) c' = None
  end.
Proof.
  intros steps. subst steps. unfold_calls.
  destruct (outcome w _) as [e1|] eqn:E1.
  { exists 0, (WriterWriteSuffix (StorageURLBlockOutputStream.writer s)).
    rewrite app_nil_r. repeat split; [done..|]. intros j c' Hj. lia. }
  destruct (outcome (w ++ [_]) (WriterFlush _)) as [e2|] eqn:E2.
  { exists 1, (WriterFlush (StorageURLBlockOutputStream.writer s)).
    simpl. rewrite <- app_assoc. repeat split; [done..|].
    intros [|j] c' Hj Hc; [|lia]. simpl in Hc. injection Hc as <-.
    by rewrite app_nil_r. }
  destruct (outcome ((w ++ [_]) ++ [_]) (BufferFinalize _)) as [e3|] eqn:E3.
  { exists 2, (BufferFinalize (StorageURLBlockOutputStream.write_buf s)).
    simpl. rewrite <- !app_assoc in *. simpl in *. repeat split; [done..|].
    intros [|[|j]] c' Hj Hc; [| |lia]; simpl in Hc; injection Hc as <-; simpl.
    - by rewrite app_nil_r.
    - done. }
  rewrite <- !app_assoc in *. simpl in *. split; [done|].
  intros [|[|[|i]]] c Hc; simpl in Hc; try discriminate; injection Hc as <-; simpl.
  - by rewrite app_nil_r.
  - done.
  - done.
Qed.

(** ** Rename *)

(** C10.  [rename] always returns, logs no call, sets the table name and
    the database name to its arguments and leaves the address, the format
    name, the compression override, the schema, the constraints and the
    context as they were; its first argument, the new path, has no effect. *)
Theorem rename_changes_only_the_names
    (new_path_to_db new_database_name new_table_name : string)
    (lock : TableStructureWriteLockHolder) (table : IStorageURLBase.t) (w : World) :
  ∃ table',
    IStorageURLBase.rename new_path_to_db new_database_name new_table_name lock (table, w)
      = (Ok tt, (table', w)) ∧
    IStorageURLBase.table_name table' = new_table_name ∧
    IStorageURLBase.database_name table' = new_database_name ∧
    IStorageURLBase.uri table' = IStorageURLBase.uri table ∧
    IStorageURLBase.format_name table' = IStorageURLBase.format_name table ∧
    IStorageURLBase.compression_method table' = IStorageURLBase.compression_method table ∧
    IStorageURLBase.columns table' = IStorageURLBase.columns table ∧
    IStorageURLBase.constraints table' = IStorageURLBase.constraints table ∧
    IStorageURLBase.context_global table' = IStorageURLBase.context_global table ∧
    ∀ other_path other_lock,
      IStorageURLBase.rename other_path new_database_name new_table_name other_lock (table, w)
      = IStorageURLBase.rename new_path_to_db new_database_name new_table_name lock (table, w).
Proof.
  exists (IStorageURLBase.set_database_name new_database_name
            (IStorageURLBase.set_table_name new_table_name table)).
  unfold IStorageURLBase.rename. unfold_calls.
  destruct table; simpl. repeat split.
Qed.

(** ** Write *)

(** C9.  [write] does not read its arguments: two calls on the same table
    and log, with any two statements and contexts, are the same computation.
    The table is left as it was.  Every upload the call opens uses POST, the
    stored address, the timeouts of the stored context and the compression
    selected from the stored address and override; the sink returned is made
    of the stored format name, the whole declared schema and the stored
    context.  The upload is opened whenever the compression is resolved, and
    the call throws only what a collaborator threw: with an open connection
    and a format that is found, the sink is returned. *)
Theorem write_ignores_its_arguments (table : IStorageURLBase.t) (w : World)
    (query1 query2 : AST) (context1 context2 : Context) :
  IStorageURLBase.write query1 context1 (table, w)
    = IStorageURLBase.write query2 context2 (table, w) ∧
  let '(r, (table', w')) := IStorageURLBase.write query1 context1 (table, w) in
  table' = table ∧
  ∃ calls, w' = w ++ calls ∧
    (∀ buf, HTTPOpenWrite buf ∈ calls →
       wb_method buf = HTTP_POST ∧
       wb_uri buf = IStorageURLBase.uri table ∧
       wb_timeouts buf = getHTTPTimeouts (IStorageURLBase.context_global table) ∧
       chooseCompressionMethod (URI.toString (IStorageURLBase.uri table))
         (IStorageURLBase.compression_method table) = Ok (wb_compression_method buf)) ∧
    (∀ sink, r = Ok sink →
       ∃ buf, calls = [HTTPOpenWrite buf; FormatGetOutput (StorageURLBlockOutputStream.writer sink)] ∧
         StorageURLBlockOutputStream.write_buf sink = buf ∧
         StorageURLBlockOutputStream.sample_block sink
           = getSampleBlock (IStorageURLBase.getColumns table) ∧
         StorageURLBlockOutputStream.writer sink
           = mkOutputFormat (IStorageURLBase.format_name table) buf
               (getSampleBlock (IStorageURLBase.getColumns table))
               (IStorageURLBase.context_global table)) ∧
    (∀ compression,
       chooseCompressionMethod (URI.toString (IStorageURLBase.uri table))
         (IStorageURLBase.compression_method table) = Ok compression →
       ∃ rest,
         calls = HTTPOpenWrite
                   (mkWriteBufferFromHTTP compression (IStorageURLBase.uri table) HTTP_POST
                      (getHTTPTimeouts (IStorageURLBase.context_global table)))
                 :: rest) ∧
    (∀ e, r = Throw e →
       chooseCompressionMethod (URI.toString (IStorageURLBase.uri table))
         (IStorageURLBase.compression_method table) = Throw e ∨
       (∃ prior c, outcome prior c = Some e) ∨
       ((IStorageURLBase.format_name table ∉ registered_formats) ∧
        e = unknown_format (IStorageURLBase.format_name table))).
Proof.
  split; [by rewrite !write_unfold|].
  rewrite write_unfold.
  destruct (chooseCompressionMethod _ _) as [compression|e]; simpl.
  2:{ split; [done|]. exists []. rewrite app_nil_r. split; [done|].
      split; [intros buf Hin; by apply elem_of_nil in Hin|].
      split; [intros sink; discriminate|].
      split; [intros compression; discriminate|].
      intros e0 [= <-]. by left. }
  set (buf := mkWriteBufferFromHTTP _ _ _ _).
  assert (Hbuf : ∀ (calls : list Call) b, HTTPOpenWrite b ∈ calls →
            (∀ c, c ∈ calls → c = HTTPOpenWrite buf ∨ ∃ o, c = FormatGetOutput o) →
            wb_method b = HTTP_POST ∧
            wb_uri b = IStorageURLBase.uri table ∧
            wb_timeouts b = getHTTPTimeouts (IStorageURLBase.context_global table) ∧
            Ok compression = Ok (wb_compression_method b)).
  { intros calls b Hin Hall. destruct (Hall _ Hin) as [Heq|[o Heq]]; [|discriminate].
    by injection Heq as ->. }
  assert (Htwo : ∀ o c, c ∈ [HTTPOpenWrite buf; FormatGetOutput o] →
            c = HTTPOpenWrite buf ∨ ∃ o, c = FormatGetOutput o).
  { intros o c Hc'. apply elem_of_cons in Hc' as [->|Hc']; [by left|].
    apply list_elem_of_singleton in Hc' as ->. right. by eexists. }
  assert (Hopened : ∀ rest compression',
            Ok compression = Ok compression' →
            ∃ rest', HTTPOpenWrite buf :: rest
              = HTTPOpenWrite
                  (mkWriteBufferFromHTTP compression' (IStorageURLBase.uri table) HTTP_POST
                     (getHTTPTimeouts (IStorageURLBase.context_global table)))
                :: rest').
  { intros rest compression' [= <-]. by exists rest. }
  destruct (outcome w _) as [e|] eqn:Hopen.
  { split; [done|]. eexists. split; [done|]. split.
    { intros b Hin. apply (Hbuf _ _ Hin). intros c Hc'. left.
      by apply list_elem_of_singleton in Hc'. }
    split; [intros sink; discriminate|]. split; [apply Hopened|].
    intros e0 [= <-]. right. left. by eexists _, _. }
  destruct (decide (_ ∈ registered_formats)) as [Hreg|Hreg].
  2:{ split; [done|]. eexists. split; [done|]. split.
      { intros b Hin. apply (Hbuf _ _ Hin). apply Htwo. }
      split; [intros sink; discriminate|]. split; [apply Hopened|].
      intros e0 [= <-]. right. right. by split. }
  destruct (outcome (w ++ _) _) as [e|] eqn:Hlookup.
  { split; [done|]. eexists. split; [done|]. split.
    { intros b Hin. apply (Hbuf _ _ Hin). apply Htwo. }
    split; [intros sink; discriminate|]. split; [apply Hopened|].
    intros e0 [= <-]. right. left. by eexists _, _. }
  split; [done|]. eexists. split; [done|]. split.
  { intros b Hin. apply (Hbuf _ _ Hin). apply Htwo. }
  split; [intros sink [= <-]; by exists buf|].
  split; [apply Hopened|]. intros e0. discriminate.
Qed.

(** ** Read *)

(** C8.  [read] leaves the table, and so its stored address, as it was.
    Every request the call opens goes to the stored address with the pairs
    of [getReadURIParams] added, in order, at the end of its query, every
    other component kept; and a call that returns has opened exactly one
    such request.  The request is opened whenever the header block and the
    compression are resolved, and the call throws only what a collaborator
    threw. *)
Theorem read_requests_a_copy_of_the_address (table : IStorageURLBase.t) (w : World)
    (column_names : Names) (query_info : SelectQueryInfo) (context : Context)
    (processed_stage : QueryProcessingStage.Enum) (max_block_size num_streams : N) :
  let params := IStorageURLBase.getReadURIParams table column_names query_info
                  context processed_stage max_block_size in
  let stored := IStorageURLBase.uri table in
  let request_uri :=
    URI.mk (URI.scheme stored) (URI.userInfo stored) (URI.host stored) (URI.port stored)
           (URI.path stored) (URI.query stored ++ params) (URI.fragment stored) in
  let '(r, (table', w')) :=
    IStorageURLBase.read column_names query_info context processed_stage
      max_block_size num_streams (table, w) in
  table' = table ∧
  IStorageURLBase.uri table' = stored ∧
  ∃ calls, w' = w ++ calls ∧
    (∀ buf, HTTPOpenRead buf ∈ calls → rb_uri buf = request_uri) ∧
    (∀ streams, r = Ok streams →
       ∃ buf reader, calls = [HTTPOpenRead buf; FormatGetInput reader] ∧
         rb_uri buf = request_uri) ∧
    (is_Ok (getHeaderBlock (IStorageURLBase.getColumns table) column_names) = true →
     is_Ok (chooseCompressionMethod (URI.getPath stored)
              (IStorageURLBase.compression_method table)) = true →
     ∃ buf rest, calls = HTTPOpenRead buf :: rest ∧
       rb_uri buf = request_uri ∧
       rb_method buf = IStorageURLBase.getReadMethod table ∧
       rb_callback buf = IStorageURLBase.getReadPOSTDataCallback table column_names
                           query_info context processed_stage max_block_size) ∧
    (∀ e, r = Throw e →
       getHeaderBlock (IStorageURLBase.getColumns table) column_names = Throw e ∨
       chooseCompressionMethod (URI.getPath stored)
         (IStorageURLBase.compression_method table) = Throw e ∨
       (∃ prior c, outcome prior c = Some e) ∨
       ((IStorageURLBase.format_name table ∉ registered_formats) ∧
        e = unknown_format (IStorageURLBase.format_name table))).
Proof.
  intros params stored request_uri. subst stored.
  pose proof (read_unfold table w column_names query_info context processed_stage
                max_block_size num_streams) as Hread.
  simpl in Hread. fold params in Hread. rewrite Hread. clear Hread.
  rewrite request_uri_path.
  assert (Huri : request_uri_of table params = request_uri).
  { unfold request_uri_of. by rewrite addQueryParameters_query. }
  rewrite !Huri.
  destruct (getHeaderBlock _ _) as [header|e].
  2:{ split; [done|]. split; [done|]. exists []. rewrite app_nil_r. split; [done|].
      split; [intros buf Hin; by apply elem_of_nil in Hin|].
      split; [intros streams; discriminate|].
      split; [discriminate|]. intros e0 [= <-]. by left. }
  destruct (chooseCompressionMethod _ _) as [compression|e].
  2:{ split; [done|]. split; [done|]. exists []. rewrite app_nil_r. split; [done|].
      split; [intros buf Hin; by apply elem_of_nil in Hin|].
      split; [intros streams; discriminate|].
      split; [intros _; discriminate|]. intros e0 [= <-]. right. by left. }
  set (buf := mkReadWriteBufferFromHTTP _ _ _ _ _ _ _ _ _ _).
  assert (Hbuf : ∀ (calls : list Call) b, HTTPOpenRead b ∈ calls →
            (∀ c, c ∈ calls → c = HTTPOpenRead buf ∨ ∃ i, c = FormatGetInput i) →
            rb_uri b = request_uri).
  { intros calls b Hin Hall. destruct (Hall _ Hin) as [Heq|[i Heq]]; [|discriminate].
    by injection Heq as ->. }
  assert (Htwo : ∀ i c, c ∈ [HTTPOpenRead buf; FormatGetInput i] →
            c = HTTPOpenRead buf ∨ ∃ i, c = FormatGetInput i).
  { intros i c Hc. apply elem_of_cons in Hc as [->|Hc]; [by left|].
    apply list_elem_of_singleton in Hc as ->. right. by eexists. }
  assert (Hopened : ∀ rest, ∃ b rest', HTTPOpenRead buf :: rest = HTTPOpenRead b :: rest' ∧
            rb_uri b = request_uri ∧
            rb_method b = IStorageURLBase.getReadMethod table ∧
            rb_callback b = IStorageURLBase.getReadPOSTDataCallback table column_names
                              query_info context processed_stage max_block_size).
  { intros rest. by exists buf, rest. }
  destruct (outcome w _) as [e|] eqn:Hopen.
  { split; [done|]. split; [done|]. eexists. split; [done|]. split.
    { intros b Hin. apply (Hbuf _ _ Hin). intros c Hc. left.
      by apply list_elem_of_singleton in Hc. }
    split; [intros streams; discriminate|]. split; [intros _ _; apply Hopened|].
    intros e0 [= <-]. right. right. left. by eexists _, _. }
  destruct (decide (_ ∈ registered_formats)) as [Hreg|Hreg].
  2:{ split; [done|]. split; [done|]. eexists. split; [done|]. split.
      { intros b Hin. apply (Hbuf _ _ Hin). apply Htwo. }
      split; [intros streams; discriminate|]. split; [intros _ _; apply Hopened|].
      intros e0 [= <-]. do 3 right. by split. }
  destruct (outcome (w ++ _) _) as [e|] eqn:Hlookup.
  { split; [done|]. split; [done|]. eexists. split; [done|]. split.
    { intros b Hin. apply (Hbuf _ _ Hin). apply Htwo. }
    split; [intros streams; discriminate|]. split; [intros _ _; apply Hopened|].
    intros e0 [= <-]. right. right. left. by eexists _, _. }
  split; [done|]. split; [done|]. eexists. split; [done|]. split.
  { intros b Hin. apply (Hbuf _ _ Hin). apply Htwo. }
  split; [intros streams _; by eexists _, _|].
  split; [intros _ _; apply Hopened|]. intros e0. discriminate.
Qed.






(** ** Lazy resolution of the format name *)

(** The creator calls nothing but, at most, the host check. *)
Lemma URL_creator_calls (args : StorageFactory.Arguments) (engine_args : ASTs) (w : World) :
  ∃ calls, (URL_creator args (engine_args, w)).2.2 = w ++ calls ∧
    (calls = [] ∨
     ∃ u, calls = [CheckURL (getRemoteHostFilter (StorageFactory.context args)) u]).
Proof.
  unfold URL_creator, evaluate_in_place, string_argument, engine_args_,
    StorageURL.create, IStorageURLBase.ctor. unfold_calls.
  repeat (case_match; simpl in *; simplify_eq);
    try (exists []; rewrite app_nil_r; by auto);
    eexists; split; eauto.
Qed.

(** Every call [read] opens is made with the compression selected on the
    path of the stored address. *)
Lemma read_selects_compression_on_the_path (table : IStorageURLBase.t) (w : World)
    column_names query_info context processed_stage max_block_size num_streams buf :
  HTTPOpenRead buf ∈
    (IStorageURLBase.read column_names query_info context processed_stage
       max_block_size num_streams (table, w)).2.2 →
  HTTPOpenRead buf ∉ w →
  chooseCompressionMethod (URI.getPath (IStorageURLBase.uri table))
    (IStorageURLBase.compression_method table) = Ok (rb_compression_method buf).
Proof.
  pose proof (read_unfold table w column_names query_info context processed_stage
                max_block_size num_streams) as Hread.
  simpl in Hread. rewrite Hread. clear Hread. rewrite request_uri_path.
  intros Hin Hnew.
  destruct (getHeaderBlock _ _) as [header|e]; [|done].
  destruct (chooseCompressionMethod _ _) as [compression|e]; [|done].
  assert (Hcalls : ∃ reader, HTTPOpenRead buf ∈
            w ++ [HTTPOpenRead (mkReadWriteBufferFromHTTP compression
                    (request_uri_of table
                       (IStorageURLBase.getReadURIParams table column_names query_info
                          context processed_stage max_block_size))
                    (IStorageURLBase.getReadMethod table)
                    (IStorageURLBase.getReadPOSTDataCallback table column_names
                       query_info context processed_stage max_block_size)
                    (getHTTPTimeouts context)
                    (max_http_get_redirects (getSettingsRef context)) ("", "")
                    DBMS_DEFAULT_BUFFER_SIZE [] (getRemoteHostFilter context));
                  FormatGetInput reader]).
  { simpl in Hin. repeat case_match; simpl in Hin; simplify_eq;
      try (eexists; exact Hin).
    exists (mkInputFormat "" buf [] context 0).
    apply elem_of_app in Hin as [Hin|Hin]; [done|].
    apply list_elem_of_singleton in Hin as ->.
    apply elem_of_app. right. apply elem_of_cons. by left. }
  destruct Hcalls as [reader Hcalls].
  apply elem_of_app in Hcalls as [Hcalls|Hcalls]; [done|].
  apply elem_of_cons in Hcalls as [Heq|Hcalls]; [by injection Heq as ->|].
  by apply list_elem_of_singleton in Hcalls.
Qed.

(** C7.  A table can be defined with a format name the registry does not
    know: when the host is permitted and the schema accepted, the
    constructor returns the table, having called nothing but the host
    check.  Every [read] and every [write] on that table throws: the
    exception is the registry's, raised at the lookup made after the
    transport has opened, unless an earlier step of the call threw first.
    The creator of the engine makes no lookup in the registry either. *)
Theorem format_name_is_resolved_when_a_stream_opens
    (uri_ : URI.t) (context_ : Context) (database_name_ table_name_ format_name_ : string)
    (columns_ stored : ColumnsDescription) (constraints_ : ConstraintsDescription)
    (compression_method_ : string) (w : World) :
  format_name_ ∉ registered_formats →
  permits (getRemoteHostFilter context_) (URI.getHost uri_) = true →
  setColumns columns_ = Ok stored →
  ∃ table,
    IStorageURLBase.ctor uri_ context_ database_name_ table_name_ format_name_
      columns_ constraints_ compression_method_ w
      = (Ok table, w ++ [CheckURL (getRemoteHostFilter context_) uri_]) ∧
    IStorageURLBase.format_name table = format_name_ ∧
    (∀ column_names query_info context processed_stage max_block_size num_streams w2,
       ∃ e w3,
         IStorageURLBase.read column_names query_info context processed_stage
           max_block_size num_streams (table, w2) = (Throw e, (table, w3)) ∧
         ((e = unknown_format format_name_ ∧
           ∃ buf reader, w3 = w2 ++ [HTTPOpenRead buf; FormatGetInput reader] ∧
             in_format reader = format_name_) ∨
          getHeaderBlock stored column_names = Throw e ∨
          chooseCompressionMethod (URI.getPath uri_) compression_method_ = Throw e ∨
          ∃ buf, outcome w2 (HTTPOpenRead buf) = Some e)) ∧
    (∀ query context w2,
       ∃ e w3,
         IStorageURLBase.write query context (table, w2) = (Throw e, (table, w3)) ∧
         ((e = unknown_format format_name_ ∧
           ∃ buf writer, w3 = w2 ++ [HTTPOpenWrite buf; FormatGetOutput writer] ∧
             out_format writer = format_name_) ∨
          chooseCompressionMethod (URI.toString uri_) compression_method_ = Throw e ∨
          ∃ buf, outcome w2 (HTTPOpenWrite buf) = Some e)) ∧
    (∀ args engine_args w0,
       ∃ calls, (URL_creator args (engine_args, w0)).2.2 = w0 ++ calls ∧
         Forall (λ c, is_format_lookup c = false) calls).
Proof.
  intros Hunknown Hpermits Hcolumns.
  rewrite ctor_unfold, Hpermits, Hcolumns.
  eexists. split; [done|]. split; [done|]. split; [|split].
  3:{ intros args engine_args w0.
      destruct (URL_creator_calls args engine_args w0) as (calls & Hcalls & [->|[u ->]]);
        eexists; (split; [exact Hcalls|]); by repeat constructor. }
  - intros column_names query_info context processed_stage max_block_size num_streams w2.
    pose proof (read_unfold
      (IStorageURLBase.mk uri_ context_ compression_method_ format_name_
         table_name_ database_name_ stored constraints_)
      w2 column_names query_info context processed_stage
      max_block_size num_streams) as Hread.
    simpl in Hread. rewrite Hread. clear Hread. rewrite request_uri_path. simpl.
    destruct (getHeaderBlock _ _) as [header|e]; [|eexists _, _; by eauto].
    destruct (chooseCompressionMethod _ _) as [compression|e]; [|eexists _, _; by eauto].
    destruct (outcome w2 _) as [e|] eqn:E1.
    { eexists _, _. split; [done|]. right. right. right. eauto. }
    rewrite decide_False by done.
    eexists _, _. split; [done|]. left. split; [done|]. by eexists _, _.
  - intros query context w2. rewrite write_unfold. simpl.
    destruct (chooseCompressionMethod _ _) as [compression|e]; [|eexists _, _; by eauto].
    destruct (outcome w2 _) as [e|] eqn:E1.
    { eexists _, _. split; [done|]. right. right. eauto. }
    rewrite decide_False by done.
    eexists _, _. split; [done|]. left. split; [done|]. by eexists _, _.
Qed.

(** ** The log only grows *)

Lemma extends_ret {S A} (log : S → World) (a : A) : extends log (mret a).
Proof. intros s. exists []. by rewrite app_nil_r. Qed.

Lemma extends_throw {S A} (log : S → World) (e : Exception) :
  extends log (throw e : M S A).
Proof. intros s. exists []. by rewrite app_nil_r. Qed.

Lemma extends_lift_exc {S A} (log : S → World) (r : Exc A) :
  extends log (lift_exc r : M S A).
Proof. intros s. exists []. by rewrite app_nil_r. Qed.

Lemma extends_bind {S A B} (log : S → World) (m : M S A) (f : A → M S B) :
  extends log m → (∀ a, extends log (f a)) → extends log (m ≫= f).
Proof.
  intros Hm Hf s. destruct (Hm s) as [calls1 H1].
  unfold mbind, M_bind. destruct (m s) as [[a|e] s1]; simpl in *.
  - destruct (Hf a s1) as [calls2 H2]. exists (calls1 ++ calls2).
    by rewrite H2, H1, app_assoc.
  - by exists calls1.
Qed.

Lemma extends_try {S A} (log : S → World) (m : M S A) :
  extends log m → extends log (try_ m).
Proof. intros Hm s. destruct (Hm s) as [calls Hcalls]. by exists calls. Qed.

Lemma extends_call (c : Call) : extends id (call c).
Proof. intros w. by exists [c]. Qed.

Lemma extends_liftW {X A} (m : M World A) :
  extends id m → extends (snd : X * World → World) (liftW m).
Proof.
  intros Hm [x w]. destruct (Hm w) as [calls Hcalls]. exists calls.
  unfold liftW. simpl in *. by destruct (m w).
Qed.

Lemma extends_assign {X} (f : X → X) :
  extends (snd : X * World → World) (assign f).
Proof. intros [x w]. exists []. by rewrite app_nil_r. Qed.

Lemma read_extends column_names query_info context processed_stage
    max_block_size num_streams :
  extends snd (IStorageURLBase.read column_names query_info context processed_stage
                 max_block_size num_streams).
Proof.
  intros [table w].
  pose proof (read_unfold table w column_names query_info context processed_stage
                max_block_size num_streams) as Hread.
  simpl in Hread. rewrite Hread. clear Hread. simpl.
  repeat case_match; simpl; try (by eexists); exists []; by rewrite app_nil_r.
Qed.

Lemma write_extends query context :
  extends snd (IStorageURLBase.write query context).
Proof.
  intros [table w]. rewrite write_unfold. simpl.
  repeat case_match; simpl; try (by eexists); exists []; by rewrite app_nil_r.
Qed.

Lemma write_blocks_extends out blocks : extends id (write_blocks out blocks).
Proof.
  induction blocks as [|block rest IH]; simpl; [apply extends_ret|].
  apply extends_bind; [apply extends_call|done].
Qed.

Lemma serve_extends (r : Request) : extends snd (serve r).
Proof.
  destruct r; simpl.
  - apply extends_bind; [apply read_extends|intros; apply extends_ret].
  - apply extends_bind; [apply write_extends|]. intros out. apply extends_liftW.
    apply extends_bind; [apply extends_call|]. intros _.
    apply extends_bind; [apply write_blocks_extends|]. intros _.
    unfold StorageURLBlockOutputStream.writeSuffix.
    repeat (apply extends_bind; [apply extends_call|intros _]). apply extends_call.
  - unfold IStorageURLBase.rename.
    apply extends_bind; [apply extends_assign|intros _; apply extends_assign].
Qed.

Lemma serve_all_extends (rs : list Request) : extends snd (serve_all rs).
Proof.
  induction rs as [|r rest IH]; simpl; [apply extends_ret|].
  apply extends_bind; [apply extends_try, serve_extends|done].
Qed.

(** In the life of a table the host check is the first call of all. *)
Lemma lifetime_starts_with_the_check uri_ context_ database_name_ table_name_
    format_name_ columns_ constraints_ compression_method_ rs :
  ∃ rest,
    (lifetime uri_ context_ database_name_ table_name_ format_name_ columns_
       constraints_ compression_method_ rs).2
    = CheckURL (getRemoteHostFilter context_) uri_ :: rest ∧
    (permits (getRemoteHostFilter context_) (URI.getHost uri_) = false → rest = []).
Proof.
  unfold lifetime. rewrite ctor_unfold. simpl.
  destruct (permits _ _); [|by exists []].
  destruct (setColumns columns_) as [stored|e]; [|by exists []].
  set (table := IStorageURLBase.mk _ _ _ _ _ _ _ _).
  destruct (serve_all_extends rs (table, [CheckURL (getRemoteHostFilter context_) uri_]))
    as [calls Hcalls].
  destruct (serve_all rs _) as [r [table' w']]. simpl in *. subst w'.
  by exists calls.
Qed.

(** ** The host check *)

(** C1.  In the life of a table, whatever requests follow its definition,
    every network call is preceded by the host check of the table's address,
    and is made only if the check passed.  When the filter rejects the host,
    the constructor throws with the code UNACCEPTABLE_URL after that one
    call, so no table exists and the whole log is the check alone: no
    network call is made. *)
Theorem rejected_host_fails_before_any_network_call
    (uri_ : URI.t) (context_ : Context) (database_name_ table_name_ format_name_ : string)
    (columns_ : ColumnsDescription) (constraints_ : ConstraintsDescription)
    (compression_method_ : string) (rs : list Request) :
  let filter := getRemoteHostFilter context_ in
  let life := lifetime uri_ context_ database_name_ table_name_ format_name_
                columns_ constraints_ compression_method_ rs in
  (∀ pre c post, life.2 = pre ++ c :: post → is_network_call c = true →
     CheckURL filter uri_ ∈ pre ∧ permits filter (URI.getHost uri_) = true) ∧
  (permits filter (URI.getHost uri_) = false →
     (∀ w, ∃ msg,
        IStorageURLBase.ctor uri_ context_ database_name_ table_name_ format_name_
          columns_ constraints_ compression_method_ w
        = (Throw (mkException msg ErrorCodes.UNACCEPTABLE_URL),
           w ++ [CheckURL filter uri_])) ∧
     (∃ msg, life = (Throw (mkException msg ErrorCodes.UNACCEPTABLE_URL),
                     [CheckURL filter uri_])) ∧
     Forall (λ c, is_network_call c = false) life.2).
Proof.
  intros filter life. split.
  - intros pre c post Hlog Hnet.
    destruct (lifetime_starts_with_the_check uri_ context_ database_name_ table_name_
                format_name_ columns_ constraints_ compression_method_ rs)
      as (rest & Hfirst & Hrejected).
    fold life filter in Hfirst, Hrejected. rewrite Hfirst in Hlog.
    destruct pre as [|first pre]; simpl in Hlog.
    + injection Hlog as <- _. discriminate.
    + injection Hlog as <- Hrest. split; [apply elem_of_cons; by left|].
      destruct (permits filter (URI.getHost uri_)) eqn:Hp; [done|].
      rewrite Hrejected in Hrest by done. by destruct pre.
  - intros Hrejected. split; [|split].
    + intros w. rewrite ctor_unfold. fold filter. rewrite Hrejected. by eexists.
    + unfold life, lifetime. rewrite ctor_unfold. fold filter. rewrite Hrejected.
      by eexists.
    + unfold life, lifetime. rewrite ctor_unfold. fold filter. rewrite Hrejected.
      simpl. by repeat constructor.
Qed.

(** ** The engine arguments *)

(** C2.  The creator registered under the name URL throws with the code
    NUMBER_OF_ARGUMENTS_DOESNT_MATCH when the engine has neither two nor
    three arguments; it has then called nothing and left the arguments as
    they were.  With exactly two arguments that evaluate to an address and a
    format name, the table is constructed with the compression override
    "auto", and every table it returns for two arguments holds "auto". *)
Theorem URL_creator_argument_count (factory : StorageFactory.t)
    (args : StorageFactory.Arguments) (engine_args : ASTs) (w : World) :
  registerStorageURL factory !! "URL" = Some URL_creator ∧
  (length engine_args ≠ 2 → length engine_args ≠ 3 →
     ∃ msg, URL_creator args (engine_args, w)
       = (Throw (mkException msg ErrorCodes.NUMBER_OF_ARGUMENTS_DOESNT_MATCH),
          (engine_args, w))) ∧
  (∀ a0 a1 l0 l1 url uri format_name,
     engine_args = [a0; a1] →
     evaluateConstantExpressionOrIdentifierAsLiteral a0 (StorageFactory.local_context args)
       = Ok l0 →
     safeGetString l0 = Ok url →
     parseURI url = Ok uri →
     evaluateConstantExpressionOrIdentifierAsLiteral a1 (StorageFactory.local_context args)
       = Ok l1 →
     safeGetString l1 = Ok format_name →
     URL_creator args (engine_args, w)
     = let '(r, w') :=
         IStorageURLBase.ctor uri (StorageFactory.context args)
           (StorageFactory.database_name args) (StorageFactory.table_name args)
           format_name (StorageFactory.columns args) (StorageFactory.constraints args)
           "auto" w in
       (r, ([l0; l1], w'))) ∧
  (length engine_args = 2 →
     ∀ table s, URL_creator args (engine_args, w) = (Ok table, s) →
       IStorageURLBase.compression_method table = "auto").
Proof.
  split; [|split; [|split]].
  - unfold registerStorageURL, StorageFactory.registerStorage. apply lookup_insert_eq.
  - intros H2 H3. unfold URL_creator, engine_args_. unfold_calls.
    rewrite bool_decide_eq_true_2 by done. by eexists.
  - intros a0 a1 l0 l1 url uri format_name -> E0 S0 P E1 S1.
    unfold URL_creator, evaluate_in_place, string_argument, engine_args_, StorageURL.create.
    unfold_calls. rewrite E0. simpl. rewrite S0. simpl. rewrite P. simpl.
    rewrite E1. simpl. rewrite S1. simpl.
    by destruct (IStorageURLBase.ctor _ _ _ _ _ _ _ _ w).
  - intros Hlen table s.
    destruct engine_args as [|a0 [|a1 [|a2 rest]]]; try discriminate. clear Hlen.
    unfold URL_creator, evaluate_in_place, string_argument, engine_args_, StorageURL.create.
    unfold IStorageURLBase.ctor. unfold_calls.
    repeat (case_match; simpl in *; simplify_eq; try done).
    by intros [= <- <-].
Qed.

End Proofs.

(** * The storage on the concrete server *)
Section OnTheServer.
#[local] Existing Instance Demo.server.

(** C3, where the code departs from it.  Two tables with the same path
    [/data.csv.gz] and the override "auto", one of whose addresses carries
    the query [v=1].  [read] selects on the path and opens both with gzip.
    [write] selects on the whole address: it opens the table without a
    query with gzip, and the table with the query uncompressed. *)
Theorem write_selects_compression_on_the_whole_address :
  URI.getPath (IStorageURLBase.uri Demo.versioned_table)
    = URI.getPath (IStorageURLBase.uri Demo.table) ∧
  IStorageURLBase.compression_method Demo.versioned_table
    = IStorageURLBase.compression_method Demo.table ∧
  opened_compressions
    (IStorageURLBase.read ["id"] Demo.info Demo.open_context
       QueryProcessingStage.Complete 65536 1 (Demo.table, [])).2.2
    = [CompressionMethod.Gzip] ∧
  opened_compressions
    (IStorageURLBase.read ["id"] Demo.info Demo.open_context
       QueryProcessingStage.Complete 65536 1 (Demo.versioned_table, [])).2.2
    = [CompressionMethod.Gzip] ∧
  opened_compressions
    (IStorageURLBase.write (ASTIdentifier "insert") Demo.open_context (Demo.table, [])).2.2
    = [CompressionMethod.Gzip] ∧
  opened_compressions
    (IStorageURLBase.write (ASTIdentifier "insert") Demo.open_context
       (Demo.versioned_table, [])).2.2
    = [CompressionMethod.None].
Proof. repeat split; vm_compute; reflexivity. Qed.

(** A table on a permitted host: the check, then the calls of the SELECT
    and of the INSERT; the RENAME calls nothing. *)
Example life_of_a_permitted_table :
  call_name <$> (lifetime Demo.example_uri Demo.strict_context "db" "t" "CSV"
                   Demo.plain_columns [] "auto" Demo.requests).2
  = ["checkURL"; "ReadWriteBufferFromHTTP"; "getInput";
     "WriteBufferFromHTTP"; "getOutput"; "writePrefix"; "write";
     "writeSuffix"; "flush"; "finalize"].
Proof. vm_compute. reflexivity. Qed.

(** The host [evil.test] is not on the allowlist of [Demo.strict_context]:
    the life of a table defined on it makes no network call. *)
Lemma rejected_host_witness :
  permits (getRemoteHostFilter Demo.strict_context) (URI.getHost Demo.evil_uri) = false ∧
  Forall (λ c, is_network_call c = false)
    (lifetime Demo.evil_uri Demo.strict_context "db" "t" "CSV"
       Demo.plain_columns [] "auto" Demo.requests).2.
Proof.
  split; [reflexivity|].
  destruct (rejected_host_fails_before_any_network_call Demo.evil_uri
              Demo.strict_context "db" "t" "CSV" Demo.plain_columns [] "auto"
              Demo.requests) as [_ Hrejected].
  destruct (Hrejected eq_refl) as (_ & _ & Hnone). exact Hnone.
Defined.

(** One engine argument is refused; two give a table with "auto". *)
Lemma URL_creator_argument_count_witness :
  (∃ msg, URL_creator Demo.factory_arguments
            ([ASTLiteral (Field_String "http://example.com/data.csv.gz")], [])
          = (Throw (mkException msg ErrorCodes.NUMBER_OF_ARGUMENTS_DOESNT_MATCH),
             ([ASTLiteral (Field_String "http://example.com/data.csv.gz")], []))) ∧
  (∀ table s,
     URL_creator Demo.factory_arguments
       ([ASTLiteral (Field_String "http://example.com/data.csv.gz"); ASTIdentifier "CSV"], [])
     = (Ok table, s) →
     IStorageURLBase.compression_method table = "auto").
Proof.
  split.
  - apply (URL_creator_argument_count ∅ Demo.factory_arguments
             [ASTLiteral (Field_String "http://example.com/data.csv.gz")] []);
      simpl; lia.
  - apply (URL_creator_argument_count ∅ Demo.factory_arguments
             [ASTLiteral (Field_String "http://example.com/data.csv.gz");
              ASTIdentifier "CSV"] []).
    reflexivity.
Defined.

Example two_arguments_define_a_table :
  URL_creator Demo.factory_arguments
    ([ASTLiteral (Field_String "http://example.com/data.csv.gz"); ASTIdentifier "CSV"], [])
  = (Ok Demo.table,
     ([ASTLiteral (Field_String "http://example.com/data.csv.gz");
       ASTLiteral (Field_String "CSV")],
      [CheckURL (getRemoteHostFilter Demo.open_context) Demo.example_uri])).
Proof. vm_compute. reflexivity. Qed.

(** The server has no format named Parquet, and the table is defined. *)
Lemma format_name_witness :
  ∃ table,
    IStorageURLBase.ctor Demo.example_uri Demo.strict_context "db" "t" "Parquet"
      Demo.plain_columns [] "auto" []
    = (Ok table, [CheckURL (getRemoteHostFilter Demo.strict_context) Demo.example_uri]) ∧
    IStorageURLBase.format_name table = "Parquet" ∧
    ∃ e w,
      IStorageURLBase.write (ASTIdentifier "insert") Demo.open_context (table, [])
      = (Throw e, (table, w)).
Proof.
  destruct (format_name_is_resolved_when_a_stream_opens Demo.example_uri
              Demo.strict_context "db" "t" "Parquet" Demo.plain_columns
              Demo.plain_columns [] "auto" [])
    as (table & Hctor & Hname & _ & Hwrite & _).
  - simpl. intros Hin.
    apply elem_of_union in Hin as [Hin|Hin]; apply elem_of_singleton in Hin;
      discriminate.
  - reflexivity.
  - reflexivity.
  - exists table. split; [exact Hctor|]. split; [exact Hname|].
    destruct (Hwrite (ASTIdentifier "insert") Demo.open_context []) as (e & w & Hw & _).
    by exists e, w.
Defined.

Example unknown_format_fails_at_the_lookup :
  (IStorageURLBase.read ["id"] Demo.info Demo.open_context QueryProcessingStage.Complete
     65536 1
     (IStorageURLBase.mk Demo.example_uri Demo.open_context "auto" "Parquet" "t" "db"
        Demo.plain_columns [], [])).1
  = Throw (unknown_format "Parquet").
Proof. vm_compute. reflexivity. Qed.


Example read_without_defaults :
  ∃ block_input,
    (IStorageURLBase.read ["id"] Demo.info Demo.open_context
       QueryProcessingStage.Complete 65536 1 (Demo.table, [])).1
    = Ok [FromURL block_input].
Proof. eexists. vm_compute. reflexivity. Qed.

End OnTheServer.

(** A storage that pushes parameters down: they follow the query the stored
    address already has, in the order given, and the table keeps its own. *)
Example pushed_parameters_follow_the_stored_query :
  let result :=
    @IStorageURLBase.read Demo.server Demo.pushdown ["id"; "s"] Demo.info Demo.open_context
      QueryProcessingStage.Complete 10 1 (Demo.versioned_table, []) in
  URI.query <$> requested_addresses result.2.2
    = [[("v", "1"); ("columns", "id,s"); ("max_block_size", "10")]] ∧
  IStorageURLBase.uri result.2.1 = Demo.versioned_uri.
Proof. vm_compute. split; reflexivity. Qed.

(** * Further properties of the storage *)
Section Pipelines.
Context `{Collaborators} `{IStorageURLBase.Virtuals}.

(** X1.  [read] and [write] check before they connect.  When the wanted
    columns give no header block or the compression override is refused,
    [read] throws one of these two exceptions, makes no call and leaves the
    table as it was; when the override is refused on the whole address,
    [write] throws that exception and makes no call. *)
Theorem read_and_write_check_before_they_connect (table : IStorageURLBase.t) (w : World)
    (column_names : Names) (query_info : SelectQueryInfo) (context : Context)
    (processed_stage : QueryProcessingStage.Enum) (max_block_size num_streams : N)
    (query : AST) (write_context : Context) :
  let header := getHeaderBlock (IStorageURLBase.getColumns table) column_names in
  let read_choice := chooseCompressionMethod (URI.getPath (IStorageURLBase.uri table))
                       (IStorageURLBase.compression_method table) in
  let write_choice := chooseCompressionMethod (URI.toString (IStorageURLBase.uri table))
                        (IStorageURLBase.compression_method table) in
  (is_Ok header = false ∨ is_Ok read_choice = false →
     ∃ e, IStorageURLBase.read column_names query_info context processed_stage
            max_block_size num_streams (table, w) = (Throw e, (table, w)) ∧
          (header = Throw e ∨ read_choice = Throw e)) ∧
  (is_Ok write_choice = false →
     ∃ e, IStorageURLBase.write query write_context (table, w) = (Throw e, (table, w)) ∧
          write_choice = Throw e).
Proof.
  intros header read_choice write_choice. split.
  - intros Hfail.
    pose proof (read_unfold table w column_names query_info context processed_stage
                  max_block_size num_streams) as Hread.
    simpl in Hread. rewrite Hread. clear Hread. rewrite request_uri_path.
    fold header read_choice.
    destruct header as [h|e]; [|exists e; by auto].
    destruct read_choice as [c|e]; [|exists e; by auto].
    by destruct Hfail.
  - intros Hfail. rewrite write_unfold. fold write_choice.
    destruct write_choice as [c|e]; [done|]. by exists e.
Qed.

(** X2.  The format is looked up only on an open connection.  Whatever the
    collaborators do, the calls of one [read] are none, the HTTP open alone,
    or the HTTP open followed by the lookup of the format on that very
    buffer; the lookup is made only if the open returned normally.  The
    same holds for [write]. *)
Theorem format_is_looked_up_only_on_an_open_connection (table : IStorageURLBase.t)
    (w : World) (column_names : Names) (query_info : SelectQueryInfo) (context : Context)
    (processed_stage : QueryProcessingStage.Enum) (max_block_size num_streams : N)
    (query : AST) (write_context : Context) :
  (∃ calls,
     (IStorageURLBase.read column_names query_info context processed_stage
        max_block_size num_streams (table, w)).2.2 = w ++ calls ∧
     (calls = [] ∨
      (∃ buf e, calls = [HTTPOpenRead buf] ∧ outcome w (HTTPOpenRead buf) = Some e) ∨
      (∃ buf reader, calls = [HTTPOpenRead buf; FormatGetInput reader] ∧
         in_buf reader = buf ∧ outcome w (HTTPOpenRead buf) = None))) ∧
  (∃ calls,
     (IStorageURLBase.write query write_context (table, w)).2.2 = w ++ calls ∧
     (calls = [] ∨
      (∃ buf e, calls = [HTTPOpenWrite buf] ∧ outcome w (HTTPOpenWrite buf) = Some e) ∨
      (∃ buf writer, calls = [HTTPOpenWrite buf; FormatGetOutput writer] ∧
         out_buf writer = buf ∧ outcome w (HTTPOpenWrite buf) = None))).
Proof.
  split.
  - pose proof (read_unfold table w column_names query_info context processed_stage
                  max_block_size num_streams) as Hread.
    simpl in Hread. rewrite Hread. clear Hread.
    destruct (getHeaderBlock _ _) as [header|e];
      [|exists []; rewrite app_nil_r; by auto].
    destruct (chooseCompressionMethod _ _) as [compression|e];
      [|exists []; rewrite app_nil_r; by auto].
    destruct (outcome w _) as [e|] eqn:Hopen.
    { eexists. split; [done|]. right. left. by eexists _, _. }
    destruct (decide (_ ∈ registered_formats)) as [Hreg|Hreg].
    + destruct (outcome (w ++ _) _) as [e|];
        (eexists; split; [done|]; right; right; by eexists _, _).
    + eexists. split; [done|]. right. right. by eexists _, _.
  - rewrite write_unfold.
    destruct (chooseCompressionMethod _ _) as [compression|e];
      [|exists []; rewrite app_nil_r; by auto].
    simpl. destruct (outcome w _) as [e|] eqn:Hopen.
    { eexists. split; [done|]. right. left. by eexists _, _. }
    destruct (decide (_ ∈ registered_formats)) as [Hreg|Hreg].
    + destruct (outcome (w ++ _) _) as [e|];
        (eexists; split; [done|]; right; right; by eexists _, _).
    + eexists. split; [done|]. right. right. by eexists _, _.
Qed.

(** X3.  Parameters pushed into the query never change the compression of
    a read: whatever pairs [getReadURIParams] adds to the request, every
    connection [read] opens is opened with the compression selected from the
    path of the stored address and the stored override. *)
Theorem pushed_parameters_never_change_the_compression (table : IStorageURLBase.t)
    (w : World) (column_names : Names) (query_info : SelectQueryInfo) (context : Context)
    (processed_stage : QueryProcessingStage.Enum) (max_block_size num_streams : N) :
  ∃ calls,
    (IStorageURLBase.read column_names query_info context processed_stage
       max_block_size num_streams (table, w)).2.2 = w ++ calls ∧
    ∀ buf, HTTPOpenRead buf ∈ calls →
      chooseCompressionMethod (URI.getPath (IStorageURLBase.uri table))
        (IStorageURLBase.compression_method table) = Ok (rb_compression_method buf) ∧
      URI.getPath (rb_uri buf) = URI.getPath (IStorageURLBase.uri table).
Proof.
  pose proof (read_unfold table w column_names query_info context processed_stage
                max_block_size num_streams) as Hread.
  simpl in Hread. rewrite Hread. clear Hread. rewrite request_uri_path.
  destruct (getHeaderBlock _ _) as [header|e].
  2:{ exists []. rewrite app_nil_r. split; [done|].
      intros buf Hin. by apply elem_of_nil in Hin. }
  destruct (chooseCompressionMethod _ _) as [compression|e].
  2:{ exists []. rewrite app_nil_r. split; [done|].
      intros buf Hin. by apply elem_of_nil in Hin. }
  set (opened := mkReadWriteBufferFromHTTP _ _ _ _ _ _ _ _ _ _).
  assert (Hopened : ∀ reader buf, HTTPOpenRead buf ∈ [HTTPOpenRead opened; FormatGetInput reader] →
            Ok compression = Ok (rb_compression_method buf) ∧
            URI.getPath (rb_uri buf) = URI.getPath (IStorageURLBase.uri table)).
  { intros reader buf Hin. apply elem_of_cons in Hin as [Heq|Hin].
    - injection Heq as ->. split; [done|]. apply request_uri_path.
    - by apply list_elem_of_singleton in Hin. }
  destruct (outcome w _) as [e|].
  { eexists. split; [done|]. intros buf Hin.
    apply (Hopened (mkInputFormat "" opened [] context 0)).
    apply list_elem_of_singleton in Hin as ->. apply elem_of_cons. by left. }
  destruct (decide (_ ∈ registered_formats)) as [Hreg|Hreg];
    [destruct (outcome (w ++ _) _) as [e|]|];
    (eexists; split; [done|]; intros buf Hin; by eapply Hopened).
Qed.

End Pipelines.

Section Uploads.
Context `{Collaborators}.

(** A list of calls run in order: all of them when none throws, otherwise
    those up to and including the first that throws. *)
Lemma run_calls_outcome (cs : list Call) (w : World) :
  match run_calls cs w with
  | (Ok _, w') =>
      w' = w ++ cs ∧
      ∀ i c, cs !! i = Some c → outcome (w ++ take i cs) c = None
  | (Throw e, w') =>
      ∃ i c, cs !! i = Some c ∧
        outcome (w ++ take i cs) c = Some e ∧
        w' = w ++ take (S i) cs ∧
        ∀ j c', j < i → cs !! j = Some c' → outcome (w ++ take j cs) c' = None
  end.
Proof.
  revert w. induction cs as [|c rest IH]; intros w; simpl.
  - unfold mret, M_ret. rewrite app_nil_r. split; [done|]. intros i c Hc.
    by rewrite lookup_nil in Hc.
  - unfold mbind, M_bind, call. destruct (outcome w c) as [e|] eqn:Hc.
    + exists 0, c. simpl. rewrite app_nil_r. repeat split; [done..|].
      intros j c' Hj. lia.
    + specialize (IH (w ++ [c])). destruct (run_calls rest (w ++ [c])) as [[[]|e] w'].
      * destruct IH as [-> Hnone]. rewrite <- app_assoc. split; [done|].
        intros [|i] c' Hc'; simpl in *.
        -- injection Hc' as <-. by rewrite app_nil_r.
        -- specialize (Hnone i c' Hc'). by rewrite <- app_assoc in Hnone.
      * destruct IH as (i & c' & Hc' & He & -> & Hbefore).
        exists (S i), c'. simpl. rewrite <- !app_assoc in *. simpl in *.
        repeat split; [done..|].
        intros [|j] c'' Hj Hc''; simpl in *.
        -- injection Hc'' as <-. by rewrite app_nil_r.
        -- assert (j < i) as Hji by lia.
           specialize (Hbefore j c'' Hji Hc''). by rewrite <- app_assoc in Hbefore.
Qed.

Lemma run_calls_app (a b : list Call) (w : World) :
  run_calls (a ++ b) w = (run_calls a;; run_calls b) w.
Proof.
  revert w. induction a as [|c rest IH]; intros w; simpl; [done|].
  unfold mbind, M_bind in *. destruct (call c w) as [[[]|e] w1]; [|done].
  apply IH.
Qed.

Lemma write_blocks_run_calls (out : StorageURLBlockOutputStream.t) (blocks : list Block) :
  write_blocks out blocks
  = run_calls (WriterWrite (StorageURLBlockOutputStream.writer out) <$> blocks).
Proof.
  induction blocks as [|block rest IH]; simpl; [done|]. by rewrite IH.
Qed.

Lemma upload_run_calls (out : StorageURLBlockOutputStream.t) (blocks : list Block)
    (w : World) :
  upload out blocks w = run_calls (upload_script out blocks) w.
Proof.
  unfold upload, upload_script, StorageURLBlockOutputStream.writePrefix. simpl.
  unfold mbind at 1 3. unfold M_bind.
  destruct (call _ w) as [[[]|e] w1]; [|done].
  rewrite run_calls_app, write_blocks_run_calls.
  unfold mbind, M_bind.
  destruct (run_calls (_ <$> blocks) w1) as [[[]|e] w2]; [|done].
  unfold StorageURLBlockOutputStream.writeSuffix. simpl.
  unfold mbind, M_bind.
  destruct (call _ w2) as [[[]|e] w3]; [|done].
  destruct (call _ w3) as [[[]|e] w4]; [|done].
  by destruct (call _ w4) as [[[]|e] w5].
Qed.

(** The buffer is finalized by the last call of the script only. *)
Lemma finalize_is_last (out : StorageURLBlockOutputStream.t) (blocks : list Block) (n : nat) :
  BufferFinalize (StorageURLBlockOutputStream.write_buf out)
    ∈ take n (upload_script out blocks) →
  take n (upload_script out blocks) = upload_script out blocks.
Proof.
  set (wr := StorageURLBlockOutputStream.writer out).
  set (body := WriterWritePrefix wr :: (WriterWrite wr <$> blocks)
               ++ [WriterWriteSuffix wr; WriterFlush wr]).
  assert (Hscript : upload_script out blocks
            = body ++ [BufferFinalize (StorageURLBlockOutputStream.write_buf out)]).
  { unfold upload_script, body. fold wr. simpl. by rewrite <- app_assoc. }
  rewrite Hscript. intros Hin.
  destruct (decide (n ≤ length body)) as [Hle|Hgt].
  - rewrite take_app_le in Hin by done.
    apply elem_of_take in Hin as (i & Hi & _).
    apply list_elem_of_lookup_2 in Hi. unfold body in Hi.
    apply elem_of_cons in Hi as [Hi|Hi]; [discriminate|].
    apply elem_of_app in Hi as [Hi|Hi].
    + apply list_elem_of_fmap in Hi as (block & Hi & _). discriminate.
    + apply elem_of_cons in Hi as [Hi|Hi]; [discriminate|].
      apply list_elem_of_singleton in Hi. discriminate.
  - clearbody body. apply take_ge. rewrite length_app. simpl. lia.
Qed.

(** X4.  An upload is finalized only after every block.  The caller of
    [write] pushes [writePrefix], each block and [writeSuffix] through the
    sink: the calls made are the script of the upload in order, all of it
    when none throws and otherwise up to and including the first call that
    throws.  So whenever the buffer was finalized, the prefix and every
    block, in order and once each, the suffix and the flush were passed to
    the codec before. *)
Theorem upload_is_finalized_only_after_every_block
    (out : StorageURLBlockOutputStream.t) (blocks : list Block) (w : World) :
  let script := upload_script out blocks in
  match upload out blocks w with
  | (Ok _, w') =>
      w' = w ++ script ∧
      ∀ i c, script !! i = Some c → outcome (w ++ take i script) c = None
  | (Throw e, w') =>
      ∃ i c, script !! i = Some c ∧
        outcome (w ++ take i script) c = Some e ∧
        w' = w ++ take (S i) script ∧
        (BufferFinalize (StorageURLBlockOutputStream.write_buf out) ∈ take (S i) script →
         take (S i) script = script ∧
         c = BufferFinalize (StorageURLBlockOutputStream.write_buf out))
  end.
Proof.
  intros script. rewrite upload_run_calls. fold script.
  pose proof (run_calls_outcome script w) as Hrun.
  destruct (run_calls script w) as [[[]|e] w']; [exact Hrun|].
  destruct Hrun as (i & c & Hc & He & -> & _).
  exists i, c. do 3 (split; [done|]). intros Hin. split.
  - by apply finalize_is_last.
  - apply finalize_is_last in Hin. fold script in Hin.
    assert (Hlen : length script = S i).
    { apply (f_equal length) in Hin. rewrite length_take in Hin.
      apply lookup_lt_Some in Hc. lia. }
    unfold script, upload_script in Hc, Hlen. simpl in Hc, Hlen.
    rewrite length_app, length_fmap in Hlen. simpl in Hlen.
    destruct i as [|i]; [lia|]. simpl in Hc.
    rewrite lookup_app_r in Hc by (rewrite length_fmap; lia).
    rewrite length_fmap in Hc.
    replace (i - length blocks) with 2 in Hc by lia.
    simpl in Hc. by injection Hc as <-.
Qed.

End Uploads.

(** * The storage registered under the name URL *)
Section URLStorage.
Context `{Collaborators}.

(** Tables that read alike are read alike. *)
Lemma read_alike (a b : IStorageURLBase.t) (w : World)
    (column_names : Names) (query_info : SelectQueryInfo) (context : Context)
    (processed_stage : QueryProcessingStage.Enum) (max_block_size num_streams : N) :
  reads_alike a b →
  IStorageURLBase.read column_names query_info context processed_stage
    max_block_size num_streams (b, w)
  = let '(r, (_, w')) :=
      IStorageURLBase.read column_names query_info context processed_stage
        max_block_size num_streams (a, w) in
    (r, (b, w')).
Proof.
  intros (Huri & Hcm & Hformat & Hcolumns).
  pose proof (read_unfold a w column_names query_info context processed_stage
                max_block_size num_streams) as Ha.
  pose proof (read_unfold b w column_names query_info context processed_stage
                max_block_size num_streams) as Hb.
  simpl in Ha, Hb. rewrite Ha, Hb. clear Ha Hb.
  unfold request_uri_of, IStorageURLBase.getColumns,
    IStorageURLBase.base_getReadURIParams, IStorageURLBase.base_getReadMethod,
    IStorageURLBase.base_getReadPOSTDataCallback. simpl.
  rewrite Huri, Hcm, Hformat, Hcolumns.
  destruct (getHeaderBlock _ _) as [header|e]; [|done].
  destruct (chooseCompressionMethod _ _) as [compression|e]; [|done].
  destruct (outcome w _) as [e|]; [done|].
  destruct (decide (_ ∈ registered_formats)) as [Hreg|Hreg]; [|done].
  by destruct (outcome (w ++ _) _) as [e|].
Qed.

(** Tables that read alike and hold the same context are written alike. *)
Lemma write_alike (a b : IStorageURLBase.t) (w : World) (query : AST) (context : Context) :
  reads_alike a b →
  IStorageURLBase.context_global a = IStorageURLBase.context_global b →
  IStorageURLBase.write query context (b, w)
  = let '(r, (_, w')) := IStorageURLBase.write query context (a, w) in (r, (b, w')).
Proof.
  intros (Huri & Hcm & Hformat & Hcolumns) Hcontext.
  rewrite !write_unfold. unfold IStorageURLBase.getColumns.
  rewrite Huri, Hcm, Hformat, Hcolumns, Hcontext.
  destruct (chooseCompressionMethod _ _) as [compression|e]; [|done].
  simpl. destruct (outcome w _) as [e|]; [done|].
  destruct (decide (_ ∈ registered_formats)) as [Hreg|Hreg]; [|done].
  by destruct (outcome (w ++ _) _) as [e|].
Qed.

(** X5.  A read of the storage URL requests the stored address itself: no
    parameter is added to it, the method is GET and the request has no
    body, no credentials and no headers of its own; the timeouts, the limit
    of redirects and the host filter are those of the context of the
    query.  A request is opened whenever the header block and the
    compression are resolved. *)
Theorem StorageURL_requests_its_own_address_with_GET (table : IStorageURLBase.t)
    (w : World) (column_names : Names) (query_info : SelectQueryInfo) (context : Context)
    (processed_stage : QueryProcessingStage.Enum) (max_block_size num_streams : N) :
  ∃ calls,
    (IStorageURLBase.read column_names query_info context processed_stage
       max_block_size num_streams (table, w)).2.2 = w ++ calls ∧
    (∀ buf, HTTPOpenRead buf ∈ calls →
       rb_uri buf = IStorageURLBase.uri table ∧
       rb_method buf = HTTP_GET ∧
       rb_callback buf = None ∧
       rb_credentials buf = ("", "") ∧
       rb_http_header_entries buf = [] ∧
       rb_buffer_size buf = DBMS_DEFAULT_BUFFER_SIZE ∧
       rb_timeouts buf = getHTTPTimeouts context ∧
       rb_max_redirects buf = max_http_get_redirects (getSettingsRef context) ∧
       rb_remote_host_filter buf = getRemoteHostFilter context) ∧
    (is_Ok (getHeaderBlock (IStorageURLBase.getColumns table) column_names) = true →
     is_Ok (chooseCompressionMethod (URI.getPath (IStorageURLBase.uri table))
              (IStorageURLBase.compression_method table)) = true →
     ∃ buf rest, calls = HTTPOpenRead buf :: rest).
Proof.
  pose proof (read_unfold table w column_names query_info context processed_stage
                max_block_size num_streams) as Hread.
  simpl in Hread. rewrite Hread. clear Hread.
  unfold request_uri_of, IStorageURLBase.base_getReadURIParams,
    IStorageURLBase.base_getReadMethod, IStorageURLBase.base_getReadPOSTDataCallback.
  simpl.
  destruct (getHeaderBlock _ _) as [header|e].
  2:{ exists []. rewrite app_nil_r. split; [done|].
      split; [intros buf Hin; by apply elem_of_nil in Hin|discriminate]. }
  destruct (chooseCompressionMethod _ _) as [compression|e].
  2:{ exists []. rewrite app_nil_r. split; [done|].
      split; [intros buf Hin; by apply elem_of_nil in Hin|discriminate]. }
  set (opened := mkReadWriteBufferFromHTTP _ _ _ _ _ _ _ _ _ _).
  assert (Hopened : ∀ reader buf,
            HTTPOpenRead buf ∈ [HTTPOpenRead opened; FormatGetInput reader] →
            buf = opened).
  { intros reader buf Hin. apply elem_of_cons in Hin as [Heq|Hin].
    - by injection Heq.
    - by apply list_elem_of_singleton in Hin. }
  destruct (outcome w _) as [e|].
  { eexists. split; [done|]. split; [|by eexists _, _].
    intros buf Hin. apply list_elem_of_singleton in Hin. by injection Hin as ->. }
  destruct (decide (_ ∈ registered_formats)) as [Hreg|Hreg];
    [destruct (outcome (w ++ _) _) as [e|]|];
    (eexists; split; [done|]; split; [|by eexists _, _];
     intros buf Hin; by apply Hopened in Hin as ->).
Qed.

(** X6.  What a read depends on.  A read of the storage URL gives the same
    result and makes the same calls on any two tables with the same
    address, compression override, format name and schema: the context
    stored at construction, the names of the table and of its database and
    the constraints play no part.  A write depends, besides, on the stored
    context only. *)
Theorem read_never_uses_the_stored_context_or_names (table : IStorageURLBase.t)
    (w : World) (column_names : Names) (query_info : SelectQueryInfo) (context : Context)
    (processed_stage : QueryProcessingStage.Enum) (max_block_size num_streams : N)
    (query : AST) (other_context : Context) (other_database other_table : string)
    (other_constraints : ConstraintsDescription) :
  let renamed := IStorageURLBase.mk (IStorageURLBase.uri table)
      (IStorageURLBase.context_global table) (IStorageURLBase.compression_method table)
      (IStorageURLBase.format_name table) other_table other_database
      (IStorageURLBase.columns table) other_constraints in
  let other := with_context_global other_context renamed in
  IStorageURLBase.read column_names query_info context processed_stage
    max_block_size num_streams (other, w)
  = (let '(r, (_, w')) :=
       IStorageURLBase.read column_names query_info context processed_stage
         max_block_size num_streams (table, w) in
     (r, (other, w'))) ∧
  IStorageURLBase.write query context (renamed, w)
  = (let '(r, (_, w')) := IStorageURLBase.write query context (table, w) in
     (r, (renamed, w'))).
Proof.
  intros renamed other. split.
  - by apply read_alike.
  - by apply write_alike.
Qed.

Lemma reads_alike_refl (a : IStorageURLBase.t) : reads_alike a a.
Proof. by repeat split. Qed.

Lemma reads_alike_trans (a b c : IStorageURLBase.t) :
  reads_alike a b → reads_alike b c → reads_alike a c.
Proof.
  intros (H1 & H2 & H3 & H4) (H5 & H6 & H7 & H8).
  repeat split; congruence.
Qed.

(** One RENAME served: the two names are set and nothing is called. *)
Lemma serve_all_rename (new_path_to_db new_database_name new_table_name : string)
    (rest : list Request) (table : IStorageURLBase.t) (w : World) :
  serve_all (Rename new_path_to_db new_database_name new_table_name :: rest) (table, w)
  = serve_all rest
      (IStorageURLBase.set_database_name new_database_name
         (IStorageURLBase.set_table_name new_table_name table), w).
Proof. reflexivity. Qed.

(** X7.  Renames change nothing but the names.  After any sequence of
    renames no call has been made; the table has the names given by the
    last of them and its address, override, format name, schema, context
    and constraints as before; and every later read and write gives the
    result and makes the calls it would have given and made before the
    renames. *)
Theorem renames_leave_reads_and_writes_as_they_were (rs : list Request)
    (table : IStorageURLBase.t) (w : World) :
  Forall (λ r, is_rename r = true) rs →
  let after := (serve_all rs (table, w)).2 in
  after.2 = w ∧
  reads_alike table after.1 ∧
  IStorageURLBase.context_global after.1 = IStorageURLBase.context_global table ∧
  IStorageURLBase.constraints after.1 = IStorageURLBase.constraints table ∧
  (rs = [] → after.1 = table) ∧
  (∀ new_path_to_db new_database_name new_table_name,
     last rs = Some (Rename new_path_to_db new_database_name new_table_name) →
     IStorageURLBase.table_name after.1 = new_table_name ∧
     IStorageURLBase.database_name after.1 = new_database_name) ∧
  (∀ column_names query_info context processed_stage max_block_size num_streams w2,
     IStorageURLBase.read column_names query_info context processed_stage
       max_block_size num_streams (after.1, w2)
     = let '(r, (_, w')) :=
         IStorageURLBase.read column_names query_info context processed_stage
           max_block_size num_streams (table, w2) in
       (r, (after.1, w'))) ∧
  (∀ query context w2,
     IStorageURLBase.write query context (after.1, w2)
     = let '(r, (_, w')) := IStorageURLBase.write query context (table, w2) in
       (r, (after.1, w'))).
Proof.
  intros Hrenames after.
  assert (Hstate : after.2 = w ∧ reads_alike table after.1 ∧
            IStorageURLBase.context_global after.1 = IStorageURLBase.context_global table ∧
            IStorageURLBase.constraints after.1 = IStorageURLBase.constraints table ∧
            (rs = [] → after.1 = table) ∧
            (∀ p d n, last rs = Some (Rename p d n) →
               IStorageURLBase.table_name after.1 = n ∧
               IStorageURLBase.database_name after.1 = d)).
  { subst after. revert table.
    induction Hrenames as [|r rest Hr _ IH]; intros table.
    - simpl. split; [done|]. split; [apply reads_alike_refl|].
      do 3 (split; [done|]). intros p d n Hl. discriminate.
    - destruct r as [| |p d n]; try discriminate. rewrite serve_all_rename.
      set (renamed := IStorageURLBase.set_database_name d
                        (IStorageURLBase.set_table_name n table)).
      destruct (IH renamed) as (Hlog & Halike & Hcontext & Hconstraints & Hnil & Hlast).
      split; [done|]. split.
      { eapply reads_alike_trans; [|exact Halike]. by repeat split. }
      split; [by rewrite Hcontext|]. split; [by rewrite Hconstraints|].
      split; [discriminate|].
      intros p' d' n' Hl. destruct rest as [|r' rest'].
      + simpl in Hl. injection Hl as -> -> ->. by rewrite Hnil.
      + apply (Hlast p' d' n'). exact Hl. }
  destruct Hstate as (Hlog & Halike & Hcontext & Hconstraints & Hnil & Hlast).
  do 6 (split; [done|]). split.
  - intros. by apply read_alike.
  - intros. by apply write_alike.
Qed.

End URLStorage.

(** * The definition of a table *)
Section TableDefinition.
Context `{Collaborators}.

(** X8.  With three engine arguments the third is the compression
    override, taken as it evaluates: when the three arguments evaluate to
    strings and the first parses as an address, the creator overwrites them
    with their literals and constructs the table with that override.  The
    override is not looked at: on a permitted host the table is defined
    whatever the compression selector would say of it. *)
Theorem URL_creator_takes_the_override_from_the_third_argument
    (args : StorageFactory.Arguments) (a0 a1 a2 l0 l1 l2 : AST)
    (url format_name override : string) (uri : URI.t) (w : World) :
  evaluateConstantExpressionOrIdentifierAsLiteral a0 (StorageFactory.local_context args)
    = Ok l0 →
  safeGetString l0 = Ok url →
  parseURI url = Ok uri →
  evaluateConstantExpressionOrIdentifierAsLiteral a1 (StorageFactory.local_context args)
    = Ok l1 →
  safeGetString l1 = Ok format_name →
  evaluateConstantExpressionOrIdentifierAsLiteral a2 (StorageFactory.local_context args)
    = Ok l2 →
  safeGetString l2 = Ok override →
  URL_creator args ([a0; a1; a2], w)
  = (let '(r, w') :=
       IStorageURLBase.ctor uri (StorageFactory.context args)
         (StorageFactory.database_name args) (StorageFactory.table_name args)
         format_name (StorageFactory.columns args) (StorageFactory.constraints args)
         override w in
     (r, ([l0; l1; l2], w'))) ∧
  (∀ stored,
     permits (getRemoteHostFilter (StorageFactory.context args)) (URI.getHost uri) = true →
     setColumns (StorageFactory.columns args) = Ok stored →
     ∃ table,
       URL_creator args ([a0; a1; a2], w)
       = (Ok table,
          ([l0; l1; l2],
           w ++ [CheckURL (getRemoteHostFilter (StorageFactory.context args)) uri])) ∧
       IStorageURLBase.compression_method table = override).
Proof.
  intros E0 S0 P E1 S1 E2 S2.
  assert (Hcreator :
    URL_creator args ([a0; a1; a2], w)
    = (let '(r, w') :=
         IStorageURLBase.ctor uri (StorageFactory.context args)
           (StorageFactory.database_name args) (StorageFactory.table_name args)
           format_name (StorageFactory.columns args) (StorageFactory.constraints args)
           override w in
       (r, ([l0; l1; l2], w')))).
  { unfold URL_creator, evaluate_in_place, string_argument, engine_args_, StorageURL.create.
    unfold_calls. rewrite E0. simpl. rewrite S0. simpl. rewrite P. simpl.
    rewrite E1. simpl. rewrite S1. simpl. rewrite E2. simpl. rewrite S2. simpl.
    by destruct (IStorageURLBase.ctor _ _ _ _ _ _ _ _ w). }
  split; [exact Hcreator|].
  intros stored Hpermits Hcolumns. rewrite Hcreator, ctor_unfold, Hpermits, Hcolumns.
  by eexists.
Qed.

(** X9.  The table the creator returns is made of its arguments.  It has
    the table and database names, the constraints and the context of the
    definition (not the local context the arguments are evaluated in), the
    schema as [setColumns] stored it, the address parsed from the first
    argument, the format name of the second and the override of the third,
    or "auto" when there are two.  The engine arguments have been
    overwritten, each by the literal it evaluates to, and the one call made
    is the host check of the address, which passed. *)
Theorem URL_creator_builds_the_table_from_its_arguments
    (args : StorageFactory.Arguments) (engine_args evaluated : ASTs) (w w' : World)
    (table : IStorageURLBase.t) :
  URL_creator args (engine_args, w) = (Ok table, (evaluated, w')) →
  IStorageURLBase.table_name table = StorageFactory.table_name args ∧
  IStorageURLBase.database_name table = StorageFactory.database_name args ∧
  IStorageURLBase.context_global table = StorageFactory.context args ∧
  IStorageURLBase.constraints table = StorageFactory.constraints args ∧
  setColumns (StorageFactory.columns args) = Ok (IStorageURLBase.columns table) ∧
  (length engine_args = 2 ∨ length engine_args = 3) ∧
  length evaluated = length engine_args ∧
  (∀ i, i < length engine_args →
     evaluateConstantExpressionOrIdentifierAsLiteral (engine_args !!! i)
       (StorageFactory.local_context args) = Ok (evaluated !!! i)) ∧
  (∃ url, safeGetString (evaluated !!! 0) = Ok url ∧
          parseURI url = Ok (IStorageURLBase.uri table)) ∧
  safeGetString (evaluated !!! 1) = Ok (IStorageURLBase.format_name table) ∧
  (if decide (length engine_args = 2)
   then IStorageURLBase.compression_method table = "auto"
   else safeGetString (evaluated !!! 2) = Ok (IStorageURLBase.compression_method table)) ∧
  w' = w ++ [CheckURL (getRemoteHostFilter (StorageFactory.context args))
               (IStorageURLBase.uri table)] ∧
  permits (getRemoteHostFilter (StorageFactory.context args))
    (URI.getHost (IStorageURLBase.uri table)) = true.
Proof.
  destruct engine_args as [|a0 [|a1 [|a2 [|a3 rest]]]];
    unfold URL_creator, evaluate_in_place, string_argument, engine_args_,
      StorageURL.create, IStorageURLBase.ctor; unfold_calls;
    try (rewrite bool_decide_eq_true_2 by (simpl; lia));
    try (intros Himpossible; discriminate Himpossible).
  - repeat (case_match; simpl in *; simplify_eq; try done).
    intros [= <- <- <-]. simpl.
    do 5 (split; [done|]). split; [by left|]. split; [done|]. split.
    { intros [|[|i]] Hi; simpl; [done..|lia]. }
    split; [by eexists|]. by repeat split.
  - repeat (case_match; simpl in *; simplify_eq; try done).
    intros [= <- <- <-]. simpl.
    do 5 (split; [done|]). split; [by right|]. split; [done|]. split.
    { intros [|[|[|i]]] Hi; simpl; [done..|lia]. }
    split; [by eexists|]. by repeat split.
Qed.

(** X10.  The host is checked last in a table definition.  Whatever the
    outcome, the creator keeps the number of engine arguments and leaves in
    each place the argument itself or the literal it evaluates to.  It makes
    no call at all, or the host check alone; and when it checks the host,
    every argument has been evaluated and overwritten and the address
    checked is the one parsed from the first. *)
Theorem URL_creator_checks_the_host_last (args : StorageFactory.Arguments)
    (engine_args : ASTs) (w : World) :
  let '(r, (after, w')) := URL_creator args (engine_args, w) in
  let evaluates i :=
    evaluateConstantExpressionOrIdentifierAsLiteral (engine_args !!! i)
      (StorageFactory.local_context args) = Ok (after !!! i) in
  length after = length engine_args ∧
  (∀ i, after !!! i = engine_args !!! i ∨ evaluates i) ∧
  (w' = w ∧ is_Ok r = false ∨
   ∃ url uri,
     w' = w ++ [CheckURL (getRemoteHostFilter (StorageFactory.context args)) uri] ∧
     safeGetString (after !!! 0) = Ok url ∧ parseURI url = Ok uri ∧
     ∀ i, i < length engine_args → evaluates i).
Proof.
  destruct engine_args as [|a0 [|a1 [|a2 [|a3 rest]]]];
    unfold URL_creator, evaluate_in_place, string_argument, engine_args_,
      StorageURL.create, IStorageURLBase.ctor; unfold_calls;
    try (rewrite bool_decide_eq_true_2 by (simpl; lia));
    try (simpl; split; [done|]; split; [by left|]; left; by split).
  - repeat (case_match; simpl in *; simplify_eq);
      (split; [done|]); (split; [intros [|[|i]]; simpl; by auto|]);
      first [ left; by split
            | right; eexists _, _; split; [done|]; split; [done|]; split; [done|];
              intros [|[|i]] Hi; simpl; [done..|lia] ].
  - repeat (case_match; simpl in *; simplify_eq);
      (split; [done|]); (split; [intros [|[|[|i]]]; simpl; by auto|]);
      first [ left; by split
            | right; eexists _, _; split; [done|]; split; [done|]; split; [done|];
              intros [|[|[|i]]] Hi; simpl; [done..|lia] ].
Qed.

End TableDefinition.

(** * The further properties on the concrete server *)
Section MoreOnTheServer.
#[local] Existing Instance Demo.server.

(** Two renames in a row: the names are those of the second. *)
Lemma renames_witness :
  Forall (λ r, is_rename r = true)
    [Rename "/var/lib/db1/" "db1" "t1"; Rename "/var/lib/db2/" "db2" "t2"] ∧
  IStorageURLBase.table_name
    (serve_all [Rename "/var/lib/db1/" "db1" "t1"; Rename "/var/lib/db2/" "db2" "t2"]
       (Demo.table, [])).2.1 = "t2" ∧
  IStorageURLBase.database_name
    (serve_all [Rename "/var/lib/db1/" "db1" "t1"; Rename "/var/lib/db2/" "db2" "t2"]
       (Demo.table, [])).2.1 = "db2".
Proof.
  assert (Hrenames : Forall (λ r, is_rename r = true)
            [Rename "/var/lib/db1/" "db1" "t1"; Rename "/var/lib/db2/" "db2" "t2"])
    by (by repeat constructor).
  split; [exact Hrenames|].
  destruct (renames_leave_reads_and_writes_as_they_were _ Demo.table [] Hrenames)
    as (_ & _ & _ & _ & _ & Hlast & _).
  apply (Hlast "/var/lib/db2/" "db2" "t2"). reflexivity.
Defined.

(** A third argument the compression selector refuses: the table is
    defined all the same and holds it. *)
Lemma third_argument_witness :
  is_Ok (chooseCompressionMethod "/data.csv.gz" "bogus") = false ∧
  ∃ table,
    URL_creator Demo.factory_arguments
      ([ASTLiteral (Field_String "http://example.com/data.csv.gz");
        ASTIdentifier "CSV"; ASTIdentifier "bogus"], [])
    = (Ok table,
       ([ASTLiteral (Field_String "http://example.com/data.csv.gz");
         ASTLiteral (Field_String "CSV"); ASTLiteral (Field_String "bogus")],
        [] ++ [CheckURL (getRemoteHostFilter Demo.open_context) Demo.example_uri])) ∧
    IStorageURLBase.compression_method table = "bogus".
Proof.
  split; [reflexivity|].
  destruct (URL_creator_takes_the_override_from_the_third_argument Demo.factory_arguments
              (ASTLiteral (Field_String "http://example.com/data.csv.gz"))
              (ASTIdentifier "CSV") (ASTIdentifier "bogus")
              (ASTLiteral (Field_String "http://example.com/data.csv.gz"))
              (ASTLiteral (Field_String "CSV")) (ASTLiteral (Field_String "bogus"))
              "http://example.com/data.csv.gz" "CSV" "bogus" Demo.example_uri [])
    as [_ Hdefined]; [reflexivity..|].
  apply (Hdefined Demo.plain_columns); reflexivity.
Defined.

(** The table of two arguments, read back. *)
Lemma built_table_witness :
  IStorageURLBase.table_name Demo.table = "t" ∧
  IStorageURLBase.database_name Demo.table = "db" ∧
  IStorageURLBase.context_global Demo.table = Demo.open_context ∧
  IStorageURLBase.compression_method Demo.table = "auto".
Proof.
  assert (Hcreated :
    URL_creator Demo.factory_arguments
      ([ASTLiteral (Field_String "http://example.com/data.csv.gz"); ASTIdentifier "CSV"], [])
    = (Ok Demo.table,
       ([ASTLiteral (Field_String "http://example.com/data.csv.gz");
         ASTLiteral (Field_String "CSV")],
        [CheckURL (getRemoteHostFilter Demo.open_context) Demo.example_uri])))
    by (vm_compute; reflexivity).
  destruct (URL_creator_builds_the_table_from_its_arguments _ _ _ _ _ _ Hcreated)
    as (Htable & Hdatabase & Hcontext & _ & _ & _ & _ & _ & _ & _ & Hoverride & _).
  simpl in Hoverride. by repeat split.
Defined.

(** A codec that throws on the second block: the upload stops there and is
    not finalized. *)
Example failed_block_is_not_finalized :
  let out := StorageURLBlockOutputStream.mk [] 
               (mkWriteBufferFromHTTP CompressionMethod.None Demo.example_uri HTTP_POST
                  (Demo.timeouts Demo.open_context))
               (mkOutputFormat "CSV"
                  (mkWriteBufferFromHTTP CompressionMethod.None Demo.example_uri HTTP_POST
                     (Demo.timeouts Demo.open_context)) [] Demo.open_context) in
  let failing : Collaborators := {|
    evaluateConstantExpressionOrIdentifierAsLiteral := Demo.evaluate;
    parseURI := Demo.parse;
    chooseCompressionMethod := chooseCompressionMethod_spec;
    getHTTPTimeouts := Demo.timeouts;
    setColumns := Ok;
    getSampleBlock := Demo.sample;
    getHeaderBlock := Demo.header;
    registered_formats := {[ "CSV" ]};
    outcome := λ w c,
      match c with
      | WriterWrite _ _ =>
          if decide (length w = 2)
          then Some (mkException "Cannot write block" (ErrorCodes.OTHER 1))
          else None
      | _ => None
      end
  |} in
  call_name <$> (@upload failing out [Demo.one_block; Demo.one_block; Demo.one_block] []).2
  = ["writePrefix"; "write"; "write"].
Proof. vm_compute. reflexivity. Qed.

End MoreOnTheServer.
